(** * Research lab front end: record store, markdown export and view state

    A shallow embedding of [streamlit_app.py]: the nested result document and
    its markdown export ([dict_to_markdown]), the in-memory record store keyed
    by a formatted timestamp, the best-effort load from [research_results.json],
    [conduct_research] and the sidebar selection of a stored record.

    Python values are modelled as follows.
    - [str] is [string]; characters are bytes, so only ASCII white space is
      known to [strip].
    - A JSON document is a [ResultTree]; a [dict] keeps its insertion order and
      is an association list.
    - A [float] carries its [repr] text: decimal formatting of binary floating
      point numbers is not modelled.
    - An exception is a value of [Exc]; the text it carries is [str(e)].
    - The recursion limit of the interpreter is a number of frames; what
      the built-in calls take of it is a parameter ([overhead]).
    - The runs of the script are modelled for a file whose existence check
      answers; the check that fails is [path_exists]. *)

From Stdlib Require Import String Ascii List ZArith Lia Bool Arith.
From Stdlib Require Import DecimalString Wellfounded.
Import ListNotations.
Open Scope string_scope.

Set Implicit Arguments.
Set Warnings "-register-all".

(** ** Text helpers *)

Module Text.

(** The line feed character and the one-character string ["\n"]. *)
Definition lf : ascii := ascii_of_nat 10.
Definition nl : string := String lf EmptyString.

(** [s * n] of Python. *)
Fixpoint repeat_str (s : string) (n : nat) : string :=
  match n with
  | O => ""
  | S k => s ++ repeat_str s k
  end.

(** [needle in hay] of Python, for strings. *)
Fixpoint contains (needle hay : string) : bool :=
  if prefix needle hay then true
  else match hay with
       | EmptyString => false
       | String _ rest => contains needle rest
       end.

(** [str.isspace] on one ASCII character: tab, line feed, vertical tab, form
    feed, carriage return, the four separators 28..31 and the space.  The
    white space beyond ASCII (U+0085, U+00A0, U+2003, ...) is not known
    here: what is proved of [strip] is proved of ASCII text. *)
Definition isspace (c : ascii) : bool :=
  let n := nat_of_ascii c in
  (((9 <=? n) && (n <=? 13)) || ((28 <=? n) && (n <=? 31)) || (n =? 32))%nat.

Fixpoint lstrip (s : string) : string :=
  match s with
  | EmptyString => EmptyString
  | String c rest => if isspace c then lstrip rest else s
  end.

Fixpoint rstrip (s : string) : string :=
  match s with
  | EmptyString => EmptyString
  | String c rest =>
      match rstrip rest with
      | EmptyString => if isspace c then EmptyString else String c EmptyString
      | r => String c r
      end
  end.

(** [s.strip()], for a text of ASCII characters. *)
Definition strip (s : string) : string := rstrip (lstrip s).

(** The first and the last character, and whether neither is white space. *)
Definition first_char (s : string) : option ascii :=
  match s with
  | EmptyString => None
  | String c _ => Some c
  end.

Fixpoint last_char (s : string) : option ascii :=
  match s with
  | EmptyString => None
  | String c rest =>
      match last_char rest with
      | Some d => Some d
      | None => Some c
      end
  end.

Definition is_trimmed (s : string) : bool :=
  match first_char s, last_char s with
  | Some a, Some b => negb (isspace a) && negb (isspace b)
  | _, _ => true
  end.

(** [s.split(sep)] for a one-character separator: the pieces between the
    separators, in order, empty pieces included; never the empty list. *)
Fixpoint split (sep : ascii) (s : string) : list string :=
  match s with
  | EmptyString => [EmptyString]
  | String c rest =>
      if Ascii.eqb c sep then EmptyString :: split sep rest
      else match split sep rest with
           | [] => [String c EmptyString]
           | piece :: pieces => String c piece :: pieces
           end
  end.

(** [s.split("\n")]. *)
Definition lines (s : string) : list string := split lf s.

(** Number of occurrences of a character. *)
Fixpoint count_char (c : ascii) (s : string) : nat :=
  match s with
  | EmptyString => 0
  | String d rest => (if Ascii.eqb d c then 1 else 0) + count_char c rest
  end.

Fixpoint lstrip_spaces (s : string) : string :=
  match s with
  | String " " rest => lstrip_spaces rest
  | _ => s
  end.

Fixpoint leading_hashes (s : string) : nat :=
  match s with
  | String "#" rest => S (leading_hashes rest)
  | _ => 0
  end.

(** The heading level of a markdown line: the number of [#] that open it,
    after its indentation ([0] when the line is no heading). *)
Definition heading_level (line : string) : nat :=
  leading_hashes (lstrip_spaces line).

(** A bullet line: ["- "] after the indentation. *)
Definition is_bullet (line : string) : bool :=
  prefix "- " (lstrip_spaces line).

Definition count_bullets (text : string) : nat :=
  List.length (filter is_bullet (lines text)).

(** [str(n)] for an [int]. *)
Definition str_of_int (n : Z) : string :=
  NilZero.string_of_int (Z.to_int n).

(** Zero-padded decimal of width two and four (["%02d"], ["%04d"]). *)
Definition digit (n : nat) : ascii := ascii_of_nat (48 + n mod 10).

Definition pad2 (n : nat) : string :=
  String (digit (n / 10)) (String (digit n) EmptyString).

Definition pad4 (n : nat) : string :=
  String (digit (n / 1000)) (String (digit (n / 100)) (pad2 n)).

End Text.

Import Text.

(** ** The result document *)

(** A JSON leaf as Python holds it. *)
Inductive ScalarValue : Type :=
  | VStr (s : string)
  | VInt (n : Z)
  | VFloat (repr : string)
  | VBool (b : bool)
  | VNone.

(** What [json.load] gives, and what the laboratory returns: a leaf, a [list]
    or a [dict] with text keys in insertion order. *)
Inductive ResultTree : Type :=
  | Scalar (v : ScalarValue)
  | Sequence (items : list ResultTree)
  | Mapping (entries : list (string * ResultTree)).

(** [f"{v}"] for a leaf. *)
Definition str (v : ScalarValue) : string :=
  match v with
  | VStr s => s
  | VInt n => str_of_int n
  | VFloat repr => repr
  | VBool true => "True"
  | VBool false => "False"
  | VNone => "None"
  end.

(** [isinstance(value, (dict, list))]. *)
Definition is_container (t : ResultTree) : bool :=
  match t with
  | Scalar _ => false
  | _ => true
  end.

(** ** Markdown export *)

(** The markers looked for in a text leaf, in the order of the source. *)
Definition markers : list string := ["###"; "##"; "#"; "**"; "-"].

(** [isinstance(value, str) and any(marker in value for marker in [...])]. *)
Definition is_markdown (v : ScalarValue) : bool :=
  match v with
  | VStr s => existsb (fun marker => contains marker s) markers
  | _ => false
  end.

(** [dict_to_markdown(d, level)].  The two loops are the inner [fix]es; the
    result is the accumulated [md]. *)
Fixpoint dict_to_markdown (d : ResultTree) (level : nat) : string :=
  let indent := repeat_str "  " level in
  match d with
  | Mapping entries =>
      (fix each (es : list (string * ResultTree)) : string :=
         match es with
         | [] => ""
         | (key, value) :: rest =>
             (match value with
              | Scalar v =>
                  if is_markdown v
                  then indent ++ "### " ++ key ++ nl ++ nl ++ str v ++ nl ++ nl
                  else indent ++ "### " ++ key ++ nl ++ nl
                       ++ "```" ++ nl ++ str v ++ nl ++ "```" ++ nl ++ nl
              | _ =>
                  indent ++ "### " ++ key ++ nl ++ nl
                  ++ dict_to_markdown value (S level)
              end) ++ each rest
         end) entries
  | Sequence items =>
      (fix each (xs : list ResultTree) : string :=
         match xs with
         | [] => ""
         | item :: rest =>
             (match item with
              | Scalar v => indent ++ "- " ++ str v ++ nl
              | _ => dict_to_markdown item level
              end) ++ each rest
         end) items ++ nl
  | Scalar v => indent ++ str v ++ nl ++ nl
  end.

(** The document written by the export button: title, focus areas and the
    rendered results. *)
Definition md_content (topic focus_areas : string) (results : ResultTree)
  : string :=
  "# Research Results: " ++ topic ++ nl ++ nl
  ++ "## Focus Areas" ++ nl ++ focus_areas ++ nl ++ nl
  ++ "## Results" ++ nl ++ nl
  ++ dict_to_markdown results 0.

(** *** The call stack of the renderer

    The same function with the recursion limit of the interpreter made
    explicit.  [frames] is the number of recursion units the interpreter
    still grants when the function is called, and [None] stands for the
    [RecursionError] raised when they are used up.  An activation takes one
    unit for its own frame.  While it runs, the built-in calls it makes
    ([d.items()], [isinstance], [any] over the generator, the formatting of
    a value) take further units for a moment, [overhead d] at most at a
    time; how many that is depends on the interpreter and is no part of the
    source, so it is a parameter.  A recursive call is made while nothing
    but the frame of the activation is held.  Every entry and item is
    evaluated, in order, as in the source. *)
Section CallStack.
Variable overhead : ResultTree -> nat.

Fixpoint dict_to_markdown_within (frames : nat) (d : ResultTree) (level : nat)
  : option string :=
  match frames with
  | O => None
  | S remaining =>
      if (overhead d <=? remaining)%nat
      then
        let indent := repeat_str "  " level in
        match d with
        | Mapping entries =>
            (fix each (es : list (string * ResultTree)) : option string :=
               match es with
               | [] => Some ""
               | (key, value) :: rest =>
                   match (match value with
                          | Scalar v =>
                              Some (if is_markdown v
                                    then indent ++ "### " ++ key ++ nl ++ nl
                                         ++ str v ++ nl ++ nl
                                    else indent ++ "### " ++ key ++ nl ++ nl
                                         ++ "```" ++ nl ++ str v ++ nl
                                         ++ "```" ++ nl ++ nl)
                          | _ =>
                              match dict_to_markdown_within remaining value
                                      (S level) with
                              | Some body =>
                                  Some (indent ++ "### " ++ key ++ nl ++ nl
                                        ++ body)
                              | None => None
                              end
                          end) with
                   | Some first =>
                       match each rest with
                       | Some others => Some (first ++ others)
                       | None => None
                       end
                   | None => None
                   end
               end) entries
        | Sequence items =>
            match (fix each (xs : list ResultTree) : option string :=
                     match xs with
                     | [] => Some ""
                     | item :: rest =>
                         match (match item with
                                | Scalar v =>
                                    Some (indent ++ "- " ++ str v ++ nl)
                                | _ =>
                                    dict_to_markdown_within remaining item level
                                end) with
                         | Some first =>
                             match each rest with
                             | Some others => Some (first ++ others)
                             | None => None
                             end
                         | None => None
                         end
                     end) items with
            | Some body => Some (body ++ nl)
            | None => None
            end
        | Scalar v => Some (indent ++ str v ++ nl ++ nl)
        end
      else None
  end.

End CallStack.

(** The recursive calls one activation makes: on a value of a [dict] that is
    a [dict] or a [list], and on an item of a [list] that is one. *)
Inductive calls : ResultTree -> ResultTree -> Prop :=
  | calls_value : forall entries key value,
      In (key, value) entries -> is_container value = true ->
      calls (Mapping entries) value
  | calls_item : forall items item,
      In item items -> is_container item = true ->
      calls (Sequence items) item.

(** Nesting depth: a leaf has depth [0], a container one more than its
    deepest member. *)
Fixpoint depth (t : ResultTree) : nat :=
  match t with
  | Scalar _ => 0
  | Sequence items => S (list_max (map depth items))
  | Mapping entries => S (list_max (map (fun e => depth (snd e)) entries))
  end.

(** A chain of [n] one-entry mappings around [inner]:
    [{key: {key: ... inner}}]. *)
Fixpoint nest (key : string) (n : nat) (inner : ResultTree) : ResultTree :=
  match n with
  | O => inner
  | S k => Mapping [(key, nest key k inner)]
  end.

(** ** Python dictionaries in insertion order *)

Module Dict.
Section Dict.
Variable V : Type.

Definition t := list (string * V).

(** [d[k]], [None] for [KeyError]. *)
Fixpoint get (k : string) (d : t) : option V :=
  match d with
  | [] => None
  | (k', v) :: rest => if String.eqb k' k then Some v else get k rest
  end.

(** [d[k] = v]: a present key keeps its place and takes the new value, a
    new key goes to the end. *)
Fixpoint set (k : string) (v : V) (d : t) : t :=
  match d with
  | [] => [(k, v)]
  | (k', v') :: rest =>
      if String.eqb k' k then (k', v) :: rest
      else (k', v') :: set k v rest
  end.

Definition keys (d : t) : list string := map fst d.

(** [k in d]. *)
Definition mem (k : string) (d : t) : bool :=
  match get k d with Some _ => true | None => false end.
End Dict.
End Dict.

(** ** Records, wall clock and storage *)

(** One entry of [research_results]: the topic, the focus areas as typed and
    the laboratory's result. *)
Record ResearchRecord : Type := {
  topic : string;
  focus_areas : string;
  results : ResultTree
}.

Definition Store : Type := Dict.t ResearchRecord.

(** [datetime.now()]. *)
Record DateTime : Type := {
  year : nat; month : nat; day : nat;
  hour : nat; minute : nat; second : nat;
  microsecond : nat
}.

(** [dt.strftime("%Y-%m-%d %H:%M:%S")]. *)
Definition strftime (dt : DateTime) : string :=
  pad4 (year dt) ++ "-" ++ pad2 (month dt) ++ "-" ++ pad2 (day dt) ++ " "
  ++ pad2 (hour dt) ++ ":" ++ pad2 (minute dt) ++ ":" ++ pad2 (second dt).

(** [research_results.json] on disk: missing, present but impossible to
    open, or present with some content. *)
Inductive File : Type :=
  | Absent
  | Unreadable
  | Content (text : string).

(** [results_file.exists()] when [stat] answers; see [path_exists] below for
    the check that fails. *)
Definition file_exists (f : File) : bool :=
  match f with Absent => false | _ => true end.

(** A computation that returns or raises; the text is [str(e)]. *)
Inductive Exc (A : Type) : Type :=
  | Ok (a : A)
  | Raise (message : string).
Arguments Raise {A} message.

(** ** Session state and what one run shows *)

Inductive View : Type := new_research | view_research.

(** [st.session_state]; [None] in the last two fields: attribute not set. *)
Record Session : Type := {
  research_results : Store;
  api_key : option string;
  current_view : option View;
  selected_research : option string
}.

(** The status boxes a run puts on the page. *)
Inductive Message : Type :=
  | error (text : string)
  | warning (text : string)
  | success (text : string).

(** The widget that triggered the run. *)
Inductive Click : Type :=
  | NoClick
  | NewResearchButton
  | RecordButton (key : string)
  | StartResearch (form_topic form_focus_areas : string)
  | ExportButton.

Record Widgets : Type := {
  api_key_input : string;
  clicked : Click
}.

(** What the code can touch during a run: the session, the results file,
    the boxes shown so far and the calls made to the laboratory (topic and
    task notes of each, latest first). *)
Record World : Type := {
  session : Session;
  disk : File;
  shown : list Message;
  lab_calls : list (string * ResultTree)
}.

(** Truth value of a text and of a text or [None]. *)
Definition truthy (s : string) : bool := negb (String.eqb s "").

Definition truthy_opt (o : option string) : bool :=
  match o with Some s => truthy s | None => false end.

(** Field updates of the session inside a world. *)
Definition with_session (f : Session -> Session) (w : World) : World :=
  {| session := f (session w); disk := disk w;
     shown := shown w; lab_calls := lab_calls w |}.

Definition set_results (r : Store) (s : Session) : Session :=
  {| research_results := r; api_key := api_key s;
     current_view := current_view s;
     selected_research := selected_research s |}.

Definition set_api_key (k : option string) (s : Session) : Session :=
  {| research_results := research_results s; api_key := k;
     current_view := current_view s;
     selected_research := selected_research s |}.

Definition set_current_view (v : View) (s : Session) : Session :=
  {| research_results := research_results s; api_key := api_key s;
     current_view := Some v;
     selected_research := selected_research s |}.

Definition set_selected_research (k : string) (s : Session) : Session :=
  {| research_results := research_results s; api_key := api_key s;
     current_view := current_view s;
     selected_research := Some k |}.

(** [st.error], [st.warning], [st.success]. *)
Definition show (m : Message) (w : World) : World :=
  {| session := session w; disk := disk w;
     shown := shown w ++ [m]; lab_calls := lab_calls w |}.

(** How [conduct_research] ends: with its pair, or inside [st.rerun()],
    whose exception is no [Exception] and leaves the function. *)
Inductive Result : Type :=
  | Returned (ok : bool) (message : string)
  | Rerun.

(** How a run of the script ends. *)
Inductive Outcome : Type :=
  | Finished
  | Restarted
  | Uncaught (exception : string).

(** [[area.strip() for area in focus_areas.split(",")]]. *)
Definition parsed_focus_areas (input : string) : list string :=
  map strip (split "," input).

(** The [task_notes] passed to the laboratory. *)
Definition task_notes (input : string) : ResultTree :=
  Mapping
    [("focus_areas",
      Sequence (map (fun area => Scalar (VStr area)) (parsed_focus_areas input)));
     ("experiment_preferences",
      Mapping
        [("dataset_size", Scalar (VStr "small"));
         ("model_complexity", Scalar (VStr "medium"));
         ("evaluation_metrics",
          Sequence [Scalar (VStr "accuracy"); Scalar (VStr "perplexity")])])].

Section App.

(** [json.load] on the content of the file: the store, or the exception
    raised on content that is no JSON. *)
Variable json_load : string -> Exc Store.

(** [json.dump(..., indent=4)]. *)
Variable json_dump : Store -> string.

(** The file left behind by [open(..., "w")] and the dump of a text,
    whether they went through or not. *)
Variable write_file : string -> File -> File.

(** [AgentLaboratory(api_key, model_name).conduct_research(topic, notes)]. *)
Variable laboratory : string -> string -> string -> ResultTree -> Exc ResultTree.

(** The body of the [try]: open the file and parse it. *)
Definition read_results (f : File) : Exc Store :=
  match f with
  | Content text => json_load text
  | Unreadable => Raise "PermissionError"
  | Absent => Raise "FileNotFoundError"
  end.

(** The value [research_results] gets in a new session: empty, replaced by
    the parsed file when that exists and reads; the bare [except] passes. *)
Definition load_results (f : File) : Store :=
  if file_exists f
  then match read_results f with
       | Ok loaded => loaded
       | Raise _ => []
       end
  else [].

(** The top of the script: a session that has no [research_results] yet
    gets them from the file, and [api_key] is set to [None]; an older
    session is kept.  Nothing is shown. *)
Definition start_run (previous : option Session) (f : File) : World :=
  {| session :=
       match previous with
       | Some s => s
       | None => {| research_results := load_results f;
                    api_key := None;
                    current_view := None;
                    selected_research := None |}
       end;
     disk := f; shown := []; lab_calls := [] |}.

(** [save_results()]: any failure is swallowed. *)
Definition save_results (w : World) : World :=
  {| session := session w;
     disk := write_file (json_dump (research_results (session w))) (disk w);
     shown := shown w; lab_calls := lab_calls w |}.

(** [conduct_research(topic, focus_areas)]; [now] is what the clock reads
    when the result is stored. *)
Definition conduct_research (now : DateTime) (topic focus_areas : string)
    (w : World) : World * Result :=
  match api_key (session w) with
  | Some key =>
      if truthy key then
        let notes := task_notes focus_areas in
        let called :=
          {| session := session w; disk := disk w; shown := shown w;
             lab_calls := (topic, notes) :: lab_calls w |} in
        match laboratory key "gpt-4o" topic notes with
        | Ok results =>
            let timestamp := strftime now in
            let record :=
              {| topic := topic; focus_areas := focus_areas;
                 results := results |} in
            let stored :=
              with_session
                (fun s => set_results
                            (Dict.set timestamp record (research_results s)) s)
                called in
            let saved := save_results stored in
            (with_session
               (fun s => set_selected_research timestamp
                           (set_current_view view_research s))
               saved,
             Rerun)
        | Raise message =>
            (called, Returned false ("Error during research: " ++ message))
        end
      else
        (show (error "Please enter your OpenAI API key in the sidebar first!") w,
         Returned false "API key required")
  | None =>
      (show (error "Please enter your OpenAI API key in the sidebar first!") w,
       Returned false "API key required")
  end.

(** One button of the sidebar's list of stored records: when it is the one
    that was clicked, its record is selected. *)
Definition record_button (click : Click) (s : Session)
    (entry : string * ResearchRecord) : Session :=
  match click with
  | RecordButton key =>
      if String.eqb key (fst entry)
      then set_selected_research (fst entry)
             (set_current_view view_research s)
      else s
  | _ => s
  end.

(** The list: one button per stored record, in the order of the store. *)
Definition record_buttons (click : Click) (s : Session) : Session :=
  fold_left (record_button click) (research_results s) s.

(** The sidebar. *)
Definition sidebar (widgets : Widgets) (w : World) : World :=
  let keyed :=
    if truthy (api_key_input widgets)
    then with_session (set_api_key (Some (api_key_input widgets))) w
    else w in
  let status :=
    show (if truthy_opt (api_key (session keyed))
          then success "✅ API Key set"
          else warning "⚠️ Please enter your API key") keyed in
  let fresh :=
    match clicked widgets with
    | NewResearchButton => with_session (set_current_view new_research) status
    | _ => status
    end in
  with_session (record_buttons (clicked widgets)) fresh.

(** The main area: the form or the selected record. *)
Definition main_area (now : DateTime) (widgets : Widgets) (w : World)
  : World * Outcome :=
  let w :=
    match current_view (session w) with
    | None => with_session (set_current_view new_research) w
    | Some _ => w
    end in
  match current_view (session w) with
  | Some view_research =>
      match selected_research (session w) with
      | Some key =>
          match Dict.get key (research_results (session w)) with
          | Some _ => (w, Finished)
          | None => (w, Uncaught "KeyError")
          end
      | None => (w, Finished)
      end
  | _ =>
      match clicked widgets with
      | StartResearch form_topic form_focus_areas =>
          if negb (truthy_opt (api_key (session w)))
          then (show (error "Please enter your OpenAI API key in the sidebar first!") w,
                Finished)
          else if truthy form_topic && truthy form_focus_areas
          then match conduct_research now form_topic form_focus_areas w with
               | (after, Returned true message) =>
                   (show (success message) after, Finished)
               | (after, Returned false message) =>
                   (show (error message) after, Finished)
               | (after, Rerun) => (after, Restarted)
               end
          else (w, Finished)
      | _ => (w, Finished)
      end
  end.

(** One run of the script. *)
Definition script_run (previous : option Session) (f : File)
    (now : DateTime) (widgets : Widgets) : World * Outcome :=
  main_area now widgets (sidebar widgets (start_run previous f)).

(** What the export button offers for download. *)
Definition export_markdown (s : Session) : option string :=
  match selected_research s with
  | Some key =>
      match Dict.get key (research_results s) with
      | Some research =>
          Some (md_content (topic research) (focus_areas research)
                  (results research))
      | None => None
      end
  | None => None
  end.

End App.

(** ** The renderer, one entry and one item at a time *)

(** The text a [dict] entry adds to [md]. *)
Definition entry_text (key : string) (value : ResultTree) (level : nat)
  : string :=
  repeat_str "  " level ++ "### " ++ key ++ nl ++ nl
  ++ match value with
     | Scalar v =>
         if is_markdown v then str v ++ nl ++ nl
         else "```" ++ nl ++ str v ++ nl ++ "```" ++ nl ++ nl
     | _ => dict_to_markdown value (S level)
     end.

(** The text a [list] item adds to [md]. *)
Definition item_text (item : ResultTree) (level : nat) : string :=
  match item with
  | Scalar v => repeat_str "  " level ++ "- " ++ str v ++ nl
  | _ => dict_to_markdown item level
  end.

(** Both results, or none: the accumulation [md += ...] under a budget. *)
Definition both (first others : option string) : option string :=
  match first, others with
  | Some a, Some b => Some (a ++ b)
  | _, _ => None
  end.

(** An entry and an item when [frames] units are left beside the frame of
    the activation, and the two loops over them. *)
Definition entry_within (overhead : ResultTree -> nat) (frames : nat)
    (key : string) (value : ResultTree) (level : nat) : option string :=
  match value with
  | Scalar _ => Some (entry_text key value level)
  | _ =>
      match dict_to_markdown_within overhead frames value (S level) with
      | Some body =>
          Some (repeat_str "  " level ++ "### " ++ key ++ nl ++ nl ++ body)
      | None => None
      end
  end.

Definition item_within (overhead : ResultTree -> nat) (frames : nat)
    (item : ResultTree) (level : nat) : option string :=
  match item with
  | Scalar _ => Some (item_text item level)
  | _ => dict_to_markdown_within overhead frames item level
  end.

Definition entries_within (overhead : ResultTree -> nat) (frames : nat)
    (entries : list (string * ResultTree)) (level : nat) : option string :=
  fold_right
    (fun e rest => both (entry_within overhead frames (fst e) (snd e) level) rest)
    (Some "") entries.

Definition items_within (overhead : ResultTree -> nat) (frames : nat)
    (items : list ResultTree) (level : nat) : option string :=
  fold_right
    (fun item rest => both (item_within overhead frames item level) rest)
    (Some "") items.

(** The recursion units a call needs: its own frame and, on top of it, the
    most that is held at a time while it runs, by its built-in calls or by
    the recursive call on one of its containers. *)
Section StackNeed.
Variable overhead : ResultTree -> nat.

Fixpoint stack_need (t : ResultTree) : nat :=
  S (Nat.max (overhead t)
       match t with
       | Scalar _ => 0
       | Sequence items =>
           list_max
             (map (fun item =>
                     match item with
                     | Scalar _ => 0
                     | _ => stack_need item
                     end) items)
       | Mapping entries =>
           list_max
             (map (fun e =>
                     match snd e with
                     | Scalar _ => 0
                     | _ => stack_need (snd e)
                     end) entries)
       end).

End StackNeed.

(** The heading lines of a chain of [n] one-entry mappings that starts at
    [level]: one per mapping, each two spaces further in. *)
Fixpoint heading_lines (key : string) (n : nat) (level : nat) : string :=
  match n with
  | O => ""
  | S k =>
      repeat_str "  " level ++ "### " ++ key ++ nl ++ nl
      ++ heading_lines key k (S level)
  end.

(** A renderer that cut its output below [limit] levels would give one text
    for any two chains that differ only below that limit. *)
Definition truncates_beyond (limit : nat) : Prop :=
  forall a b : ResultTree,
    dict_to_markdown (nest "k" (S limit) a) 0
    = dict_to_markdown (nest "k" (S limit) b) 0.

(** Two readings of the clock within one second. *)
Definition same_second (a b : DateTime) : Prop :=
  year a = year b /\ month a = month b /\ day a = day b
  /\ hour a = hour b /\ minute a = minute b /\ second a = second b.

(** The record the session points at, if any, is in the store. *)
Definition selection_stored (s : Session) : Prop :=
  match selected_research s with
  | Some key => Dict.mem key (research_results s) = true
  | None => True
  end.

(** ** A small environment to run the code in *)

Module Lab.

(** A parser that knows the empty object only. *)
Definition json_load (text : string) : Exc Store :=
  if String.eqb text "{}" then Ok [] else Raise "JSONDecodeError".

(** A printer that writes the keys, one per line. *)
Definition json_dump (r : Store) : string :=
  fold_right (fun k rest => k ++ nl ++ rest) "" (Dict.keys r).

(** A disk on which every write goes through. *)
Definition write_file (text : string) (f : File) : File := Content text.

(** A laboratory that answers every topic with a one-entry mapping. *)
Definition laboratory (key model topic : string) (notes : ResultTree)
  : Exc ResultTree :=
  Ok (Mapping [("summary", Scalar (VStr topic))]).

(** A session with a key typed in and nothing stored. *)
Definition keyed_session : Session :=
  {| research_results := []; api_key := Some "sk-test";
     current_view := Some new_research; selected_research := None |}.

Definition world_of (s : Session) : World :=
  {| session := s; disk := Absent; shown := []; lab_calls := [] |}.

(** Two instants of one second. *)
Definition morning : DateTime :=
  {| year := 2024; month := 5; day := 17;
     hour := 9; minute := 30; second := 15; microsecond := 250 |}.

Definition morning_later : DateTime :=
  {| year := 2024; month := 5; day := 17;
     hour := 9; minute := 30; second := 15; microsecond := 4750 |}.

(** A session that shows the one record it holds. *)
Definition viewing_session : Session :=
  {| research_results :=
       [("2024-05-17 09:30:15",
         {| topic := "X"; focus_areas := "a,b";
            results := Mapping [("summary", Scalar (VStr "X"))] |})];
     api_key := Some "sk-test";
     current_view := Some view_research;
     selected_research := Some "2024-05-17 09:30:15" |}.

End Lab.

(** ** The existence check of the file *)

(** What [stat] says of [research_results.json]: an answer, with the file
    as it is, or an [OSError] that [Path.exists] does not take for a
    missing file and raises again (a directory on the way that may not be
    searched, for one). *)
Inductive Storage : Type :=
  | Stat_answers (f : File)
  | Stat_fails (message : string).

(** [results_file.exists()]. *)
Definition path_exists (s : Storage) : Exc bool :=
  match s with
  | Stat_answers f => Ok (file_exists f)
  | Stat_fails message => Raise message
  end.

(** The body of the [try] on that storage: open the file and parse it. *)
Definition open_and_load (json_load : string -> Exc Store) (s : Storage)
  : Exc Store :=
  match s with
  | Stat_answers f => read_results json_load f
  | Stat_fails message => Raise message
  end.

(** The value [research_results] gets in a new session, or the exception
    that leaves the script: the existence check stands before the [try],
    the bare [except] covers the opening and the parsing only. *)
Definition initial_results (json_load : string -> Exc Store) (s : Storage)
  : Exc Store :=
  match path_exists s with
  | Raise message => Raise message
  | Ok false => Ok []
  | Ok true =>
      match open_and_load json_load s with
      | Ok loaded => Ok loaded
      | Raise _ => Ok []
      end
  end.

(** ** The widgets of a page *)


(** ** The download of the export *)

(** [c.isupper()] and [c.lower()] for an ASCII character. *)
Definition is_upper (c : ascii) : bool :=
  let n := nat_of_ascii c in ((65 <=? n) && (n <=? 90))%nat.

Definition lower_char (c : ascii) : ascii :=
  if is_upper c then ascii_of_nat (nat_of_ascii c + 32) else c.

(** [s.lower()], for a text of ASCII characters. *)
Fixpoint lower (s : string) : string :=
  match s with
  | EmptyString => EmptyString
  | String c rest => String (lower_char c) (lower rest)
  end.

(** [s.replace(old, new)] for one-character [old] and [new]. *)
Fixpoint replace_char (old new : ascii) (s : string) : string :=
  match s with
  | EmptyString => EmptyString
  | String c rest =>
      String (if Ascii.eqb c old then new else c) (replace_char old new rest)
  end.

(** Number of characters that satisfy a test. *)
Fixpoint count_if (p : ascii -> bool) (s : string) : nat :=
  match s with
  | EmptyString => 0
  | String c rest => (if p c then 1 else 0) + count_if p rest
  end.

(** Every character is below 128. *)
Fixpoint is_ascii (s : string) : bool :=
  match s with
  | EmptyString => true
  | String c rest => (nat_of_ascii c <? 128)%nat && is_ascii rest
  end.

(** Every character is white space. *)
Fixpoint all_space (s : string) : bool :=
  match s with
  | EmptyString => true
  | String c rest => isspace c && all_space rest
  end.

(** [f"research_{topic.lower().replace(' ', '_')}.md"]. *)
Definition file_name (topic : string) : string :=
  "research_" ++ replace_char " " "_" (lower topic) ++ ".md".

(** ** What a tree holds *)

(** The keys of all the mappings of a tree and its leaves, in the order the
    renderer meets them. *)
Fixpoint keys_of (t : ResultTree) : list string :=
  match t with
  | Scalar _ => []
  | Sequence items => flat_map keys_of items
  | Mapping entries =>
      flat_map (fun e => fst e :: keys_of (snd e)) entries
  end.

Fixpoint leaves_of (t : ResultTree) : list ScalarValue :=
  match t with
  | Scalar v => [v]
  | Sequence items => flat_map leaves_of items
  | Mapping entries => flat_map (fun e => leaves_of (snd e)) entries
  end.

(** A chain of [n] one-item lists around [inner]: [[[... inner]]]. *)
Fixpoint nest_list (n : nat) (inner : ResultTree) : ResultTree :=
  match n with
  | O => inner
  | S k => Sequence [nest_list k inner]
  end.

(** ** Clock readings *)

(** The fields of a [datetime] of the years 1000 to 9999. *)
Definition valid_datetime (dt : DateTime) : Prop :=
  10 * 100 <= year dt < 100 * 100
  /\ 1 <= month dt <= 12 /\ 1 <= day dt <= 31
  /\ hour dt < 24 /\ minute dt < 60 /\ second dt < 60.

(** ** A file that holds one store *)

Module Archive.

(** The store of [Lab.viewing_session] with one more record, as the
    laboratory of [Lab] answers the topic [Y] a minute later. *)
Definition noon : DateTime :=
  {| year := 2024; month := 5; day := 17;
     hour := 9; minute := 31; second := 15; microsecond := 0 |}.

Definition two_records : Store :=
  Dict.set (strftime noon)
    {| topic := "Y"; focus_areas := "c";
       results := Mapping [("summary", Scalar (VStr "Y"))] |}
    (research_results Lab.viewing_session).

(** A parser that reads back what [Lab.json_dump] wrote for that store. *)
Definition json_load (text : string) : Exc Store :=
  if String.eqb text (Lab.json_dump two_records) then Ok two_records
  else if String.eqb text "{}" then Ok []
  else Raise "JSONDecodeError".

(** A disk that takes no write. *)
Definition read_only (text : string) (f : File) : File := f.

(** A laboratory that is down. *)
Definition unreachable (key model topic : string) (notes : ResultTree)
  : Exc ResultTree :=
  Raise "connection refused".

End Archive.

(** * Facts *)

(** ** Text *)

Lemma append_assoc (a b c : string) : (a ++ b) ++ c = a ++ (b ++ c).
Proof.
  induction a as [|x a IH]; simpl; [reflexivity | now rewrite IH].
Qed.

Lemma append_nil_r (a : string) : a ++ "" = a.
Proof.
  induction a as [|x a IH]; simpl; [reflexivity | now rewrite IH].
Qed.

Lemma append_inv_head (a b c : string) : a ++ b = a ++ c -> b = c.
Proof.
  induction a as [|x a IH]; simpl; intros H; [exact H|].
  injection H as H. now apply IH.
Qed.

(** [prefix] and [contains] say what they are named after. *)
Lemma prefix_spec (a b : string) :
  prefix a b = true <-> exists rest, b = a ++ rest.
Proof.
  revert b. induction a as [|x a IH]; intros b; cbn [prefix].
  - split; [intros _; now exists b | intros _; now destruct b].
  - destruct b as [|y b]; cbn [prefix].
    + split; [discriminate | intros [rest H]; discriminate H].
    + destruct (ascii_dec x y) as [-> | Hne].
      * rewrite IH. split; intros [rest H]; exists rest.
        -- cbn. now rewrite H.
        -- cbn in H. now injection H.
      * split; [discriminate|].
        intros [rest H]. cbn in H. injection H as Hxy _. congruence.
Qed.

Lemma contains_spec (needle hay : string) :
  contains needle hay = true
  <-> exists before after, hay = before ++ needle ++ after.
Proof.
  induction hay as [|c hay IH]; cbn [contains].
  - destruct (prefix needle "") eqn:E.
    + apply prefix_spec in E. destruct E as [rest E].
      split; [intros _; now exists "", rest | reflexivity].
    + split; [discriminate|].
      intros (before & after & H).
      destruct before; [|discriminate H]. cbn in H.
      assert (prefix needle "" = true) by (apply prefix_spec; now exists after).
      congruence.
  - destruct (prefix needle (String c hay)) eqn:E.
    + apply prefix_spec in E. destruct E as [rest E].
      split; [intros _; now exists "", rest | reflexivity].
    + rewrite IH. split; intros (before & after & H).
      * exists (String c before), after. cbn. now rewrite H.
      * destruct before as [|d before].
        -- cbn in H.
           assert (prefix needle (String c hay) = true)
             by (apply prefix_spec; now exists after).
           congruence.
        -- cbn in H. injection H as _ H. now exists before, after.
Qed.

(** A heading line carries three [#], whatever its indentation. *)
Lemma heading_level_indented (level : nat) (rest : string) :
  heading_level (repeat_str "  " level ++ "### " ++ rest) = 3.
Proof.
  unfold heading_level.
  induction level as [|level IH]; simpl; [reflexivity | exact IH].
Qed.

(** ** The renderer, one entry and one item at a time *)

Lemma dict_to_markdown_entry key value rest level :
  dict_to_markdown (Mapping ((key, value) :: rest)) level
  = entry_text key value level ++ dict_to_markdown (Mapping rest) level.
Proof.
  unfold entry_text.
  destruct value as [v | items | entries]; cbn [dict_to_markdown].
  - destruct (is_markdown v); now rewrite !append_assoc.
  - now rewrite !append_assoc.
  - now rewrite !append_assoc.
Qed.

Lemma dict_to_markdown_item item rest level :
  dict_to_markdown (Sequence (item :: rest)) level
  = item_text item level ++ dict_to_markdown (Sequence rest) level.
Proof.
  unfold item_text.
  destruct item as [v | items | entries]; cbn [dict_to_markdown];
    now rewrite !append_assoc.
Qed.

Lemma dict_to_markdown_no_entry level :
  dict_to_markdown (Mapping []) level = "".
Proof. reflexivity. Qed.

Lemma dict_to_markdown_no_item level :
  dict_to_markdown (Sequence []) level = nl.
Proof. reflexivity. Qed.

Lemma dict_to_markdown_sequence items level :
  dict_to_markdown (Sequence items) level
  = fold_right append nl (map (fun item => item_text item level) items).
Proof.
  induction items as [|item rest IH].
  - reflexivity.
  - rewrite dict_to_markdown_item, IH. reflexivity.
Qed.

Lemma dict_to_markdown_mapping entries level :
  dict_to_markdown (Mapping entries) level
  = fold_right append ""
      (map (fun e => entry_text (fst e) (snd e) level) entries).
Proof.
  induction entries as [|[key value] rest IH].
  - reflexivity.
  - rewrite dict_to_markdown_entry, IH. reflexivity.
Qed.

(** ** Depth of the members of a node *)

Lemma depth_below {A : Type} (f : A -> nat) (x : A) (xs : list A) :
  In x xs -> f x <= list_max (map f xs).
Proof.
  unfold list_max.
  induction xs as [|y xs IH]; intros Hin; [destruct Hin|].
  cbn [map fold_right]. destruct Hin as [-> | Hin]; [lia|].
  specialize (IH Hin). lia.
Qed.

Lemma deepest_member {A : Type} (f : A -> nat) (xs : list A) (n : nat) :
  n < list_max (map f xs) -> exists x, In x xs /\ n < f x.
Proof.
  unfold list_max.
  induction xs as [|y xs IH]; cbn [map fold_right]; intros H; [lia|].
  destruct (Nat.lt_ge_cases n (f y)) as [Hy | Hy].
  - exists y. split; [now left | exact Hy].
  - destruct IH as (x & Hin & Hx); [lia|].
    exists x. split; [now right | exact Hx].
Qed.

(** ** The renderer's call stack *)

Section CallStackFacts.
Variable overhead : ResultTree -> nat.

Lemma within_scalar frames v level :
  dict_to_markdown_within overhead (S frames) (Scalar v) level
  = if (overhead (Scalar v) <=? frames)%nat
    then Some (dict_to_markdown (Scalar v) level)
    else None.
Proof. reflexivity. Qed.

Lemma within_mapping frames entries level :
  dict_to_markdown_within overhead (S frames) (Mapping entries) level
  = if (overhead (Mapping entries) <=? frames)%nat
    then entries_within overhead frames entries level
    else None.
Proof.
  cbn [dict_to_markdown_within].
  destruct (overhead (Mapping entries) <=? frames)%nat; [|reflexivity].
  induction entries as [|[key value] rest IH]; [reflexivity|].
  unfold entries_within. cbn [fold_right fst snd].
  fold (entries_within overhead frames rest level). rewrite <- IH.
  unfold both, entry_within, entry_text.
  destruct value as [v | items | entries].
  - destruct (is_markdown v); reflexivity.
  - destruct (dict_to_markdown_within overhead frames (Sequence items)
                (S level)); reflexivity.
  - destruct (dict_to_markdown_within overhead frames (Mapping entries)
                (S level)); reflexivity.
Qed.

Lemma within_sequence frames items level :
  dict_to_markdown_within overhead (S frames) (Sequence items) level
  = if (overhead (Sequence items) <=? frames)%nat
    then match items_within overhead frames items level with
         | Some body => Some (body ++ nl)
         | None => None
         end
    else None.
Proof.
  cbn [dict_to_markdown_within].
  destruct (overhead (Sequence items) <=? frames)%nat; [|reflexivity].
  match goal with
  | |- match ?each items with _ => _ end = _ =>
      assert (Heach : forall xs, each xs = items_within overhead frames xs level)
  end.
  { induction xs as [|item rest IH]; [reflexivity|].
    unfold items_within. cbn [fold_right].
    fold (items_within overhead frames rest level). rewrite <- IH.
    unfold both, item_within, item_text.
    destruct item as [v | ys | es]; reflexivity. }
  now rewrite Heach.
Qed.

(** The loops return the text when every recursive call does. *)
Lemma entries_within_all frames entries level :
  (forall e, In e entries -> is_container (snd e) = true ->
     dict_to_markdown_within overhead frames (snd e) (S level)
     = Some (dict_to_markdown (snd e) (S level))) ->
  entries_within overhead frames entries level
  = Some (dict_to_markdown (Mapping entries) level).
Proof.
  induction entries as [|[key value] rest IH]; intros H; [reflexivity|].
  unfold entries_within. cbn [fold_right fst snd].
  fold (entries_within overhead frames rest level).
  rewrite IH by (intros e He; apply H; now right).
  rewrite dict_to_markdown_entry. unfold entry_within.
  destruct value as [v | xs | es]; [reflexivity | |];
    match goal with
    | |- context [dict_to_markdown_within overhead frames ?val _] =>
        pose proof (H (key, val) (or_introl eq_refl) eq_refl) as Hv
    end;
    cbn [snd] in Hv; now rewrite Hv.
Qed.

Lemma items_within_all frames items level :
  (forall item, In item items -> is_container item = true ->
     dict_to_markdown_within overhead frames item level
     = Some (dict_to_markdown item level)) ->
  match items_within overhead frames items level with
  | Some body => Some (body ++ nl)
  | None => None
  end = Some (dict_to_markdown (Sequence items) level).
Proof.
  induction items as [|item rest IH]; intros H; [reflexivity|].
  unfold items_within. cbn [fold_right].
  fold (items_within overhead frames rest level).
  specialize (IH (fun x Hx => H x (or_intror Hx))).
  destruct (items_within overhead frames rest level) as [body|];
    [|discriminate IH].
  assert (Hrest : body ++ nl = dict_to_markdown (Sequence rest) level)
    by congruence.
  clear IH. rewrite dict_to_markdown_item, <- Hrest.
  unfold item_within.
  destruct item as [v | xs | es];
    [cbn [both]; now rewrite append_assoc | |];
    (rewrite H; [cbn [both item_text]; now rewrite append_assoc
                | now left | reflexivity]).
Qed.

(** The loops overflow when one recursive call does. *)
Lemma entries_within_none frames entries level key value :
  In (key, value) entries ->
  is_container value = true ->
  dict_to_markdown_within overhead frames value (S level) = None ->
  entries_within overhead frames entries level = None.
Proof.
  intros Hin Hc Hnone.
  induction entries as [|[k v] rest IH]; [destruct Hin|].
  unfold entries_within. cbn [fold_right fst snd].
  fold (entries_within overhead frames rest level).
  destruct Hin as [Heq | Hin].
  - injection Heq as -> ->. unfold entry_within.
    destruct value; [discriminate Hc | now rewrite Hnone..].
  - rewrite (IH Hin). unfold both.
    now destruct (entry_within overhead frames k v level).
Qed.

Lemma items_within_none frames items level item :
  In item items ->
  is_container item = true ->
  dict_to_markdown_within overhead frames item level = None ->
  items_within overhead frames items level = None.
Proof.
  intros Hin Hc Hnone.
  induction items as [|x rest IH]; [destruct Hin|].
  unfold items_within. cbn [fold_right].
  fold (items_within overhead frames rest level).
  destruct Hin as [-> | Hin].
  - unfold item_within.
    destruct item; [discriminate Hc | now rewrite Hnone..].
  - rewrite (IH Hin). unfold both.
    now destruct (item_within overhead frames x level).
Qed.

(** A stack deeper than the tree by more than the built-in calls take is
    enough for the call to return the text. *)
Lemma within_enough (most : nat) :
  (forall d, overhead d <= most) ->
  forall frames t level,
    depth t + most < frames ->
    dict_to_markdown_within overhead frames t level
    = Some (dict_to_markdown t level).
Proof.
  intros Hmost.
  induction frames as [|frames IH]; intros t level Hd; [lia|].
  assert (Hfits : (overhead t <=? frames)%nat = true)
    by (apply Nat.leb_le; specialize (Hmost t); lia).
  destruct t as [v | items | entries].
  - now rewrite within_scalar, Hfits.
  - rewrite within_sequence, Hfits. apply items_within_all.
    intros item Hin _. apply IH.
    cbn [depth] in Hd. apply (depth_below depth) in Hin. lia.
  - rewrite within_mapping, Hfits. apply entries_within_all.
    intros e Hin _. apply IH.
    cbn [depth] in Hd.
    apply (depth_below (fun e => depth (snd e))) in Hin. lia.
Qed.

(** With fewer frames than the tree is deep, the call overflows, whatever
    the built-in calls take. *)
Lemma within_short :
  forall frames t level,
    frames < depth t ->
    dict_to_markdown_within overhead frames t level = None.
Proof.
  induction frames as [|frames IH]; intros t level Hd; [reflexivity|].
  destruct t as [v | items | entries]; cbn [depth] in Hd.
  - lia.
  - rewrite within_sequence.
    destruct (overhead (Sequence items) <=? frames)%nat; [|reflexivity].
    apply PeanoNat.lt_S_n, deepest_member in Hd.
    destruct Hd as (item & Hin & Hdeep).
    rewrite (@items_within_none frames items level item Hin);
      [reflexivity | destruct item; [cbn in Hdeep; lia | reflexivity..]
      | now apply IH].
  - rewrite within_mapping.
    destruct (overhead (Mapping entries) <=? frames)%nat; [|reflexivity].
    apply PeanoNat.lt_S_n, deepest_member in Hd.
    destruct Hd as ([key value] & Hin & Hdeep). cbn [snd] in Hdeep.
    apply (@entries_within_none frames entries level key value Hin);
      [destruct value; [cbn in Hdeep; lia | reflexivity..]
      | now apply IH].
Qed.

End CallStackFacts.

(** Every recursive call is on a member of the node, one level less deep. *)
Lemma calls_depth t child : calls t child -> depth child < depth t.
Proof.
  intros [entries key value Hin _ | items item Hin _]; cbn [depth].
  - apply (depth_below (fun e => depth (snd e))) in Hin.
    cbn [snd] in Hin. lia.
  - apply (depth_below depth) in Hin. lia.
Qed.

Lemma calls_well_founded : well_founded (fun child t => calls t child).
Proof.
  apply (Wf_nat.well_founded_lt_compat _ depth).
  intros child t H. now apply calls_depth.
Qed.

(** ** Chains of mappings *)

Lemma nest_is_container key n inner :
  is_container inner = true -> is_container (nest key n inner) = true.
Proof. destruct n; intros H; [exact H | reflexivity]. Qed.

Lemma depth_nest key n inner : depth (nest key n inner) = n + depth inner.
Proof.
  induction n as [|n IH]; [reflexivity|].
  cbn [nest depth map snd list_max fold_right]. rewrite IH. lia.
Qed.

Lemma entry_text_container key value level :
  is_container value = true ->
  entry_text key value level
  = repeat_str "  " level ++ "### " ++ key ++ nl ++ nl
    ++ dict_to_markdown value (S level).
Proof.
  destruct value; [discriminate | reflexivity | reflexivity].
Qed.

(** A chain is rendered level by level down to its innermost value. *)
Lemma dict_to_markdown_nest key inner :
  is_container inner = true ->
  forall n level,
    dict_to_markdown (nest key n inner) level
    = heading_lines key n level ++ dict_to_markdown inner (n + level).
Proof.
  intros Hinner n. induction n as [|n IH]; intros level; [reflexivity|].
  cbn [nest heading_lines].
  rewrite dict_to_markdown_entry, dict_to_markdown_no_entry, append_nil_r.
  rewrite entry_text_container by now apply nest_is_container.
  rewrite IH, !append_assoc. now rewrite Nat.add_succ_r.
Qed.

(** ** Termination of the renderer *)

(** C10, as stated, fails: the renderer does not return a text whatever
    the depth.  Whatever the built-in calls take and however many frames
    the stack has, there is a tree on which the call overflows; with a
    thousand frames, and built-in calls that take none, a chain of a
    thousand mappings around a list is one. *)
Lemma C10_counterexample :
  (~ exists overhead frames,
       forall t, dict_to_markdown_within overhead frames t 0 <> None)
  /\ dict_to_markdown_within (fun _ => 0) 1000
       (nest "k" 1000 (Sequence [Scalar (VStr "leaf")])) 0
     = None.
Proof.
  split.
  - intros (overhead & frames & H).
    apply (H (nest "k" frames (Sequence []))).
    apply within_short. rewrite depth_nest. cbn [depth map list_max fold_right].
    lia.
  - apply within_short. rewrite depth_nest. cbn [depth map list_max fold_right].
    lia.
Qed.

(** C10, amended: the recursion of the renderer is structural, and no depth
    counter or bound is kept: each recursive call is on a member of the
    node it is called from, strictly less deep, so the calls are well
    founded and the renderer comes to an end on every finite tree.  It
    returns the text when the stack is deep enough: more frames than the
    tree is deep plus the most the built-in calls of an activation take
    are enough, and with fewer frames than the tree is deep the call
    overflows instead of returning. *)
Theorem C10_renderer_returns_given_stack :
  forall overhead most,
    (forall d, overhead d <= most) ->
    (forall t child, calls t child -> depth child < depth t)
    /\ well_founded (fun child t => calls t child)
    /\ (forall frames t level,
          depth t + most < frames ->
          dict_to_markdown_within overhead frames t level
          = Some (dict_to_markdown t level))
    /\ (forall frames t level,
          frames < depth t ->
          dict_to_markdown_within overhead frames t level = None).
Proof.
  intros overhead most Hmost.
  split; [exact calls_depth|].
  split; [exact calls_well_founded|].
  split.
  - now apply within_enough.
  - apply within_short.
Qed.

(** Built-in calls that take two units each, and a tree two deep. *)
Lemma C10_renderer_returns_given_stack_witness :
  (forall d : ResultTree, (fun _ : ResultTree => 2) d <= 2)
  /\ dict_to_markdown_within (fun _ => 2) 5
       (Mapping [("a", Sequence [Scalar (VStr "x")])]) 0
     = Some (dict_to_markdown (Mapping [("a", Sequence [Scalar (VStr "x")])]) 0)
  /\ dict_to_markdown_within (fun _ => 2) 1
       (Mapping [("a", Sequence [Scalar (VStr "x")])]) 0
     = None.
Proof.
  assert (Hmost : forall d : ResultTree, (fun _ : ResultTree => 2) d <= 2)
    by (intros d; apply le_n).
  split; [exact Hmost|].
  destruct (@C10_renderer_returns_given_stack (fun _ => 2) 2 Hmost)
    as (_ & _ & Henough & Hshort).
  split.
  - apply Henough. cbn. lia.
  - apply Hshort. cbn. lia.
Defined.

(** ** No depth limit *)

(** C2, as stated, fails: for no limit does the renderer cut what lies below
    it; two chains that differ only in their innermost value, however deep,
    are rendered differently.  So it is at depth 65, beyond a limit of 64. *)
Lemma C2_counterexample :
  (~ exists limit, truncates_beyond limit)
  /\ dict_to_markdown (nest "k" 65 (Sequence [Scalar (VStr "x")])) 0
     <> dict_to_markdown (nest "k" 65 (Sequence [Scalar (VStr "y")])) 0.
Proof.
  split.
  - intros [limit H].
    specialize (H (Sequence []) (Sequence [Scalar (VStr "x")])).
    rewrite !dict_to_markdown_nest in H by reflexivity.
    apply append_inv_head in H.
    rewrite dict_to_markdown_item in H. cbn in H. discriminate H.
  - rewrite !dict_to_markdown_nest by reflexivity.
    intros H. apply append_inv_head in H.
    rewrite !dict_to_markdown_item in H. unfold item_text in H.
    rewrite !append_assoc in H. apply append_inv_head in H.
    discriminate H.
Qed.

(** C2, amended: the renderer keeps no depth limit and writes no placeholder.
    The text of a chain of mappings of any depth [n] around a container is
    the full rendering: [n] heading lines, one per level, then the
    innermost value rendered at level [n].  Nothing is cut at any depth:
    two chains of one depth have the same text only if their innermost
    values are rendered alike. *)
Theorem C2_deep_tree_rendered_in_full :
  forall key inner n level,
    is_container inner = true ->
    dict_to_markdown (nest key n inner) level
    = heading_lines key n level ++ dict_to_markdown inner (n + level)
    /\ (forall other,
          is_container other = true ->
          dict_to_markdown (nest key n other) level
          = dict_to_markdown (nest key n inner) level ->
          dict_to_markdown other (n + level)
          = dict_to_markdown inner (n + level)).
Proof.
  intros key inner n level Hinner.
  split; [now apply dict_to_markdown_nest|].
  intros other Hother H.
  rewrite !dict_to_markdown_nest in H by assumption.
  now apply append_inv_head in H.
Qed.

(** A list nested in a chain a thousand deep. *)
Lemma C2_deep_tree_rendered_in_full_witness :
  is_container (Sequence [Scalar (VStr "leaf")]) = true
  /\ dict_to_markdown (nest "k" 1000 (Sequence [Scalar (VStr "leaf")])) 0
     = heading_lines "k" 1000 0
       ++ dict_to_markdown (Sequence [Scalar (VStr "leaf")]) (1000 + 0).
Proof.
  split; [reflexivity|].
  apply (C2_deep_tree_rendered_in_full "k" (Sequence [Scalar (VStr "leaf")])
           1000 0).
  reflexivity.
Defined.

(** ** Headings *)

(** C3, as stated, fails: the keys [a], [b] and [c], at nesting depths 0, 1
    and 2, get heading lines that differ in indentation only; the heading
    level is 3 for each. *)
Lemma C3_counterexample :
  let text :=
    dict_to_markdown
      (Mapping [("a", Mapping [("b", Mapping [("c", Scalar (VStr "x"))])])]) 0 in
  nth 0 (lines text) "" = "### a"
  /\ nth 2 (lines text) "" = "  ### b"
  /\ nth 4 (lines text) "" = "    ### c"
  /\ heading_level (nth 0 (lines text) "") = 3
  /\ heading_level (nth 2 (lines text) "") = 3
  /\ heading_level (nth 4 (lines text) "") = 3.
Proof. cbv. repeat split. Qed.

(** C3, amended: for every entry of a mapping the heading line is the
    indentation of the nesting level (two spaces per level, with no cap),
    the fixed marker [###] and the key; its heading level is 3 at every
    nesting level.  A value that is a mapping or a list is rendered one
    level further in, a leaf is written right under the heading. *)
Theorem C3_heading_marker_is_fixed :
  forall key value rest level,
    dict_to_markdown (Mapping ((key, value) :: rest)) level
    = (repeat_str "  " level ++ "### " ++ key) ++ nl ++ nl
      ++ match value with
         | Scalar v =>
             if is_markdown v then str v ++ nl ++ nl
             else "```" ++ nl ++ str v ++ nl ++ "```" ++ nl ++ nl
         | _ => dict_to_markdown value (S level)
         end
      ++ dict_to_markdown (Mapping rest) level
    /\ heading_level (repeat_str "  " level ++ "### " ++ key) = 3
    /\ String.length (repeat_str "  " level) = 2 * level.
Proof.
  intros key value rest level. split; [|split].
  - rewrite dict_to_markdown_entry. unfold entry_text.
    now rewrite !append_assoc.
  - apply heading_level_indented.
  - induction level as [|level IH]; [reflexivity|].
    cbn [repeat_str append String.length]. rewrite IH. lia.
Qed.

(** ** Lists *)

(** C4, as stated, fails: a mapping inside a list gets no bullet and no
    further indentation; it is rendered where it stands, at the level of
    the list. *)
Lemma C4_counterexample :
  let element := Mapping [("k", Scalar (VStr "v"))] in
  let text := dict_to_markdown (Sequence [element]) 0 in
  count_bullets text = 0
  /\ text = dict_to_markdown element 0 ++ nl
  /\ text <> dict_to_markdown element 1 ++ nl.
Proof. cbv. repeat split. discriminate. Qed.

(** C4, amended: a list is rendered item by item, in order, and closed by an
    empty line.  A leaf becomes one bullet line: the indentation, ["- "] and
    the text of the leaf.  An item that is a mapping or a list is rendered
    in place at the level of the list, without a bullet of its own.  So a
    list of leaves gives exactly one bullet line per item, and ["a"], ["b"]
    give [- a] then [- b]. *)
Theorem C4_list_items :
  (forall items level,
     dict_to_markdown (Sequence items) level
     = fold_right append nl
         (map (fun item =>
                 match item with
                 | Scalar v => repeat_str "  " level ++ "- " ++ str v ++ nl
                 | _ => dict_to_markdown item level
                 end) items))
  /\ (forall leaves level,
        dict_to_markdown (Sequence (map Scalar leaves)) level
        = fold_right append nl
            (map (fun v => repeat_str "  " level ++ "- " ++ str v ++ nl) leaves))
  /\ dict_to_markdown (Sequence [Scalar (VStr "a"); Scalar (VStr "b")]) 0
     = "- a" ++ nl ++ "- b" ++ nl ++ nl.
Proof.
  split; [|split].
  - intros items level. apply dict_to_markdown_sequence.
  - intros leaves level. rewrite dict_to_markdown_sequence, map_map.
    reflexivity.
  - reflexivity.
Qed.

(** ** Leaves under a key *)

(** C5, as stated, fails: the number [-5] has the text [-5], which contains
    the marker [-], and is fenced all the same, because only text leaves are
    searched for markers. *)
Lemma C5_counterexample :
  existsb (fun marker => contains marker (str (VInt (-5)))) markers = true
  /\ dict_to_markdown (Mapping [("delta", Scalar (VInt (-5)))]) 0
     = "### delta" ++ nl ++ nl ++ "```" ++ nl ++ "-5" ++ nl ++ "```" ++ nl ++ nl.
Proof. split; reflexivity. Qed.

(** C5, amended: a leaf under a key is written verbatim when it is a text
    that contains one of the markers [###], [##], [#], [**], [-]; a text
    without any of them, and every leaf that is no text (number, boolean,
    null), is written inside a code fence.  The mapping [metrics] with
    [accuracy: 0.9] and [notes: **done**] fences [0.9] and writes
    [**done**] as it is. *)
Theorem C5_leaf_under_key :
  (forall key v rest level,
     dict_to_markdown (Mapping ((key, Scalar v) :: rest)) level
     = repeat_str "  " level ++ "### " ++ key ++ nl ++ nl
       ++ match v with
          | VStr s =>
              if existsb (fun marker => contains marker s) markers
              then s ++ nl ++ nl
              else "```" ++ nl ++ s ++ nl ++ "```" ++ nl ++ nl
          | _ => "```" ++ nl ++ str v ++ nl ++ "```" ++ nl ++ nl
          end
       ++ dict_to_markdown (Mapping rest) level)
  /\ (forall s,
        existsb (fun marker => contains marker s) markers = true
        <-> exists marker before after,
              In marker markers /\ s = before ++ marker ++ after)
  /\ dict_to_markdown
       (Mapping [("metrics",
                  Mapping [("accuracy", Scalar (VFloat "0.9"));
                           ("notes", Scalar (VStr "**done**"))])]) 0
     = "### metrics" ++ nl ++ nl
       ++ "  ### accuracy" ++ nl ++ nl
       ++ "```" ++ nl ++ "0.9" ++ nl ++ "```" ++ nl ++ nl
       ++ "  ### notes" ++ nl ++ nl
       ++ "**done**" ++ nl ++ nl.
Proof.
  split; [|split; [|reflexivity]].
  - intros key v rest level.
    rewrite dict_to_markdown_entry. unfold entry_text.
    rewrite !append_assoc. do 5 f_equal.
    destruct v; reflexivity.
  - intros s. rewrite existsb_exists. split.
    + intros (marker & Hin & Hc). apply contains_spec in Hc.
      destruct Hc as (before & after & Hs). now exists marker, before, after.
    + intros (marker & before & after & Hin & Hs).
      exists marker. split; [exact Hin|].
      apply contains_spec. now exists before, after.
Qed.

(** ** Focus areas *)

Lemma split_not_empty sep s : split sep s <> [].
Proof.
  destruct s as [|c s]; cbn [split]; [discriminate|].
  destruct (Ascii.eqb c sep); [discriminate|].
  destruct (split sep s); discriminate.
Qed.

(** [split] gives one piece more than there are separators. *)
Lemma length_split sep s :
  List.length (split sep s) = S (count_char sep s).
Proof.
  induction s as [|c s IH]; [reflexivity|].
  cbn [split count_char]. destruct (Ascii.eqb c sep).
  - cbn [List.length]. now rewrite IH.
  - destruct (split sep s) as [|piece pieces] eqn:E.
    + now destruct (@split_not_empty sep s E).
    + cbn [List.length] in *. now rewrite IH.
Qed.

(** Joining the pieces with the separator gives the text back. *)
Lemma concat_split sep s :
  String.concat (String sep "") (split sep s) = s.
Proof.
  induction s as [|c s IH]; [reflexivity|].
  cbn [split]. destruct (Ascii.eqb_spec c sep) as [-> | Hne].
  - destruct (split sep s) as [|piece pieces] eqn:E.
    + now destruct (@split_not_empty sep s E).
    + rewrite <- IH. reflexivity.
  - destruct (split sep s) as [|piece pieces] eqn:E.
    + now destruct (@split_not_empty sep s E).
    + rewrite <- IH. destruct pieces; reflexivity.
Qed.

(** No piece holds a separator. *)
Lemma split_pieces sep s :
  Forall (fun piece => count_char sep piece = 0) (split sep s).
Proof.
  induction s as [|c s IH]; [repeat constructor|].
  cbn [split]. destruct (Ascii.eqb c sep) eqn:Ec.
  - constructor; [reflexivity | exact IH].
  - destruct (split sep s) as [|piece pieces]; [repeat constructor; cbn; now rewrite Ec|].
    inversion IH as [|? ? Hpiece Hpieces]; subst.
    constructor; [|exact Hpieces].
    cbn [count_char]. now rewrite Ec, Hpiece.
Qed.

Lemma length_lstrip s : String.length (lstrip s) <= String.length s.
Proof.
  induction s as [|c s IH]; [reflexivity|].
  cbn [lstrip]. destruct (isspace c); cbn [String.length]; lia.
Qed.

Lemma lstrip_idempotent s : lstrip (lstrip s) = lstrip s.
Proof.
  induction s as [|c s IH]; [reflexivity|].
  cbn [lstrip]. destruct (isspace c) eqn:E; [exact IH|].
  cbn [lstrip]. now rewrite E.
Qed.

Lemma rstrip_idempotent s : rstrip (rstrip s) = rstrip s.
Proof.
  induction s as [|c s IH]; [reflexivity|].
  cbn [rstrip]. destruct (rstrip s) as [|d r] eqn:E.
  - destruct (isspace c) eqn:Ec; [reflexivity|].
    cbn [rstrip]. now rewrite Ec.
  - change (rstrip (String c (String d r)))
      with (match rstrip (String d r) with
            | EmptyString =>
                if isspace c then EmptyString else String c EmptyString
            | String x y => String c (String x y)
            end).
    now rewrite IH.
Qed.

(** Trimming on the right puts no white space in front. *)
Lemma lstrip_rstrip s : lstrip s = s -> lstrip (rstrip s) = rstrip s.
Proof.
  destruct s as [|c s]; [reflexivity|].
  cbn [lstrip]. destruct (isspace c) eqn:E.
  - intros H. pose proof (length_lstrip s) as L. rewrite H in L.
    cbn [String.length] in L. lia.
  - intros _. cbn [rstrip].
    destruct (rstrip s); [rewrite E|]; cbn [lstrip]; now rewrite E.
Qed.

Lemma first_char_lstrip s c :
  first_char (lstrip s) = Some c -> isspace c = false.
Proof.
  induction s as [|d s IH]; cbn [lstrip]; [discriminate|].
  destruct (isspace d) eqn:E; [exact IH|].
  cbn. intros H. injection H as <-. exact E.
Qed.

Lemma first_char_rstrip s c :
  first_char (rstrip s) = Some c -> first_char s = Some c.
Proof.
  destruct s as [|d s]; cbn [rstrip]; [discriminate|].
  destruct (rstrip s); [destruct (isspace d)|]; cbn;
    intros H; now inversion H.
Qed.

Lemma last_char_rstrip s c :
  last_char (rstrip s) = Some c -> isspace c = false.
Proof.
  induction s as [|d s IH]; cbn [rstrip]; [discriminate|].
  destruct (rstrip s) as [|e r] eqn:E.
  - destruct (isspace d) eqn:Ed; cbn; [discriminate|].
    intros H. injection H as <-. exact Ed.
  - cbn [last_char] in *. destruct (last_char r) as [x|].
    + exact IH.
    + exact IH.
Qed.

(** A stripped text neither starts nor ends with white space. *)
Lemma strip_is_trimmed s : is_trimmed (strip s) = true.
Proof.
  unfold is_trimmed, strip.
  destruct (first_char (rstrip (lstrip s))) as [a|] eqn:Ea; [|reflexivity].
  destruct (last_char (rstrip (lstrip s))) as [b|] eqn:Eb; [|reflexivity].
  apply first_char_rstrip, first_char_lstrip in Ea.
  apply last_char_rstrip in Eb.
  now rewrite Ea, Eb.
Qed.

Lemma count_char_lstrip c s : count_char c (lstrip s) <= count_char c s.
Proof.
  induction s as [|d s IH]; [reflexivity|].
  cbn [lstrip]. destruct (isspace d); cbn [count_char]; lia.
Qed.

Lemma count_char_rstrip c s : count_char c (rstrip s) <= count_char c s.
Proof.
  induction s as [|d s IH]; [reflexivity|].
  cbn [rstrip]. destruct (rstrip s) as [|e r].
  - destruct (isspace d); cbn [count_char] in *; lia.
  - cbn [count_char] in *. lia.
Qed.

Lemma count_char_strip c s : count_char c (strip s) <= count_char c s.
Proof.
  unfold strip.
  pose proof (count_char_rstrip c (lstrip s)).
  pose proof (count_char_lstrip c s). lia.
Qed.

Lemma strip_idempotent s : strip (strip s) = strip s.
Proof.
  unfold strip.
  rewrite (lstrip_rstrip (lstrip_idempotent s)).
  apply rstrip_idempotent.
Qed.

(** C9, as stated, fails: the empty entries of ["a,,b,"] are kept. *)
Lemma C9_counterexample :
  parsed_focus_areas "a,,b," = ["a"; ""; "b"; ""]
  /\ parsed_focus_areas "a,,b," <> ["a"; "b"]
  /\ In "" (parsed_focus_areas "a,,b,").
Proof.
  split; [reflexivity|]. split; [discriminate|].
  right. left. reflexivity.
Qed.

Lemma lstrip_decompose s :
  exists lead, s = lead ++ lstrip s /\ all_space lead = true.
Proof.
  induction s as [|c s (lead & Hs & Hlead)]; [now exists ""|].
  cbn [lstrip]. destruct (isspace c) eqn:E.
  - exists (String c lead). cbn [append all_space].
    now rewrite <- Hs, E, Hlead.
  - now exists "".
Qed.

Lemma rstrip_decompose s :
  exists trail, s = rstrip s ++ trail /\ all_space trail = true.
Proof.
  induction s as [|c s (trail & Hs & Htrail)]; [now exists ""|].
  cbn [rstrip]. destruct (rstrip s) as [|d r].
  - cbn [append] in Hs. subst s. destruct (isspace c) eqn:E.
    + exists (String c trail). cbn [append all_space].
      now rewrite E, Htrail.
    + now exists trail.
  - exists trail. cbn [append] in *. now rewrite <- Hs.
Qed.

(** Stripping takes white space off the two ends and nothing else. *)
Lemma strip_decompose s :
  exists lead trail,
    s = lead ++ strip s ++ trail
    /\ all_space lead = true /\ all_space trail = true.
Proof.
  destruct (lstrip_decompose s) as (lead & Hs & Hlead).
  destruct (rstrip_decompose (lstrip s)) as (trail & Hm & Htrail).
  exists lead, trail. unfold strip. now rewrite <- Hm.
Qed.

Lemma is_ascii_app a b : is_ascii (a ++ b) = is_ascii a && is_ascii b.
Proof.
  induction a as [|c a IH]; [reflexivity|].
  cbn [append is_ascii]. now rewrite IH, andb_assoc.
Qed.

(** C9, amended: for an input of ASCII characters the focus areas handed
    to the laboratory are the pieces of the input between its commas, in
    order, each with the white space taken off its two ends and nothing
    else: joined by commas the pieces give the input back, every entry is
    its piece without a run of white space in front and one behind, and
    is free of commas and of white space at its ends.  No piece is
    dropped, so there is one entry more than the input has commas and
    empty entries stay.  ["a,,b,"] gives [a], the empty text, [b] and the
    empty text. *)
Theorem C9_focus_areas_split_and_trimmed :
  forall input,
    is_ascii input = true ->
    parsed_focus_areas input = map strip (split "," input)
    /\ String.concat "," (split "," input) = input
    /\ List.length (parsed_focus_areas input) = S (count_char "," input)
    /\ Forall2 (fun piece area =>
                  exists lead trail,
                    piece = lead ++ area ++ trail
                    /\ all_space lead = true /\ all_space trail = true)
         (split "," input) (parsed_focus_areas input)
    /\ Forall (fun area =>
                 is_trimmed area = true
                 /\ strip area = area
                 /\ count_char "," area = 0
                 /\ is_ascii area = true)
         (parsed_focus_areas input)
    /\ (exists preferences,
          task_notes input
          = Mapping
              [("focus_areas",
                Sequence (map (fun area => Scalar (VStr area))
                            (parsed_focus_areas input)));
               ("experiment_preferences", preferences)])
    /\ parsed_focus_areas "a,,b," = ["a"; ""; "b"; ""].
Proof.
  intros input Hascii. unfold parsed_focus_areas.
  split; [reflexivity|].
  split; [apply (concat_split "," input)|].
  split; [now rewrite length_map, length_split|].
  assert (Hpieces : Forall (fun piece => is_ascii piece = true)
                      (split "," input)).
  { revert Hascii. induction input as [|c s IH]; [repeat constructor|].
    cbn [is_ascii split]. intros H. apply andb_true_iff in H.
    destruct H as [Hc Hs]. specialize (IH Hs).
    destruct (Ascii.eqb c ","); [now constructor|].
    destruct (split "," s) as [|piece pieces];
      [repeat constructor; cbn [is_ascii]; now rewrite Hc|].
    inversion IH as [|? ? Hpiece Hrest]; subst.
    constructor; [cbn [is_ascii]; now rewrite Hc, Hpiece | exact Hrest]. }
  split; [|split; [|split; [eexists; reflexivity | reflexivity]]].
  - clear Hpieces. induction (split "," input) as [|piece pieces IH];
      constructor; [apply strip_decompose | exact IH].
  - apply Forall_map.
    pose proof (split_pieces "," input) as Hcomma.
    rewrite Forall_forall in *. intros piece Hin.
    split; [apply strip_is_trimmed|].
    split; [apply strip_idempotent|].
    split.
    + pose proof (count_char_strip "," piece).
      specialize (Hcomma _ Hin). cbv beta in Hcomma. lia.
    + destruct (strip_decompose piece) as (lead & trail & Hs & _ & _).
      specialize (Hpieces _ Hin). cbv beta in Hpieces.
      rewrite Hs, !is_ascii_app in Hpieces.
      apply andb_true_iff in Hpieces. destruct Hpieces as [_ H].
      apply andb_true_iff in H. now destruct H.
Qed.

(** Spaces around the entries and an empty entry. *)
Lemma C9_focus_areas_split_and_trimmed_witness :
  is_ascii " nlp , vision,," = true
  /\ parsed_focus_areas " nlp , vision,," = ["nlp"; "vision"; ""; ""]
  /\ List.length (parsed_focus_areas " nlp , vision,,")
     = S (count_char "," " nlp , vision,,").
Proof.
  split; [reflexivity|]. split; [reflexivity|].
  destruct (@C9_focus_areas_split_and_trimmed " nlp , vision,," eq_refl)
    as (_ & _ & H & _).
  exact H.
Defined.

(** ** Dictionaries *)

Section DictFacts.
Variable V : Type.
Implicit Types (d : Dict.t V) (k : string) (v : V).

Lemma mem_false_not_in k d : Dict.mem k d = false -> ~ In k (Dict.keys d).
Proof.
  unfold Dict.mem, Dict.keys.
  induction d as [|[k' v'] d IH]; cbn [Dict.get map fst]; [tauto|].
  destruct (String.eqb_spec k' k) as [-> | Hne]; [discriminate|].
  intros H [Heq | Hin]; [contradiction | now apply IH].
Qed.

Lemma mem_true_in k d : Dict.mem k d = true -> In k (Dict.keys d).
Proof.
  unfold Dict.mem, Dict.keys.
  induction d as [|[k' v'] d IH]; cbn [Dict.get map fst]; [discriminate|].
  destruct (String.eqb_spec k' k) as [-> | Hne]; [now left|].
  intros H. right. now apply IH.
Qed.

(** Assignment keeps the keys when the key is there and adds it at the
    end when it is not. *)
Lemma keys_set k v d :
  Dict.keys (Dict.set k v d)
  = if Dict.mem k d then Dict.keys d else (Dict.keys d ++ [k])%list.
Proof.
  unfold Dict.mem, Dict.keys.
  induction d as [|[k' v'] d IH]; cbn [Dict.get Dict.set map fst app];
    [reflexivity|].
  destruct (String.eqb k' k); [reflexivity|].
  cbn [map fst]. rewrite IH.
  now destruct (Dict.get k d).
Qed.

Lemma get_set k v d : Dict.get k (Dict.set k v d) = Some v.
Proof.
  induction d as [|[k' v'] d IH]; cbn [Dict.get Dict.set].
  - now rewrite String.eqb_refl.
  - destruct (String.eqb k' k) eqn:E; cbn [Dict.get]; now rewrite E.
Qed.

Lemma get_set_other k k' v d :
  k' <> k -> Dict.get k' (Dict.set k v d) = Dict.get k' d.
Proof.
  intros Hne.
  induction d as [|[k2 v2] d IH]; cbn [Dict.get Dict.set].
  - destruct (String.eqb_spec k k'); [congruence | reflexivity].
  - destruct (String.eqb_spec k2 k) as [-> | H2]; cbn [Dict.get].
    + destruct (String.eqb_spec k k'); [congruence | reflexivity].
    + now rewrite IH.
Qed.

Lemma mem_set_same k v d : Dict.mem k (Dict.set k v d) = true.
Proof. unfold Dict.mem. now rewrite get_set. Qed.

Lemma mem_set_keeps k k' v d :
  Dict.mem k' d = true -> Dict.mem k' (Dict.set k v d) = true.
Proof.
  destruct (String.eqb_spec k' k) as [-> | Hne].
  - intros _. apply mem_set_same.
  - unfold Dict.mem. now rewrite get_set_other.
Qed.

Lemma in_mem k v d : In (k, v) d -> Dict.mem k d = true.
Proof.
  unfold Dict.mem.
  induction d as [|[k' v'] d IH]; intros Hin; [destruct Hin|].
  cbn [Dict.get]. destruct (String.eqb_spec k' k) as [-> | Hne];
    [reflexivity|].
  destruct Hin as [Heq | Hin]; [congruence | now apply IH].
Qed.

Lemma NoDup_keys_set k v d :
  NoDup (Dict.keys d) -> NoDup (Dict.keys (Dict.set k v d)).
Proof.
  intros Hd. rewrite keys_set.
  destruct (Dict.mem k d) eqn:E; [exact Hd|].
  apply mem_false_not_in in E.
  apply NoDup_rev in Hd. rewrite <- (rev_involutive (_ ++ _)%list).
  apply NoDup_rev. rewrite rev_app_distr. cbn [rev app].
  constructor; [|exact Hd].
  now rewrite <- in_rev.
Qed.

Lemma length_set k v d :
  List.length (Dict.set k v d)
  = if Dict.mem k d then List.length d else S (List.length d).
Proof.
  pose proof (keys_set k v d) as H.
  apply (f_equal (@List.length string)) in H.
  unfold Dict.keys in H at 1. rewrite length_map in H. rewrite H.
  unfold Dict.keys.
  destruct (Dict.mem k d); rewrite ?length_app, length_map;
    cbn [List.length]; lia.
Qed.
End DictFacts.

(** The timestamp does not see the microseconds. *)
Lemma strftime_same_second a b : same_second a b -> strftime a = strftime b.
Proof.
  unfold same_second, strftime.
  intros (-> & -> & -> & -> & -> & ->). reflexivity.
Qed.

(** ** The store, the form and the sidebar *)

Section AppFacts.
Variable json_load : string -> Exc Store.
Variable json_dump : Store -> string.
Variable write_file : string -> File -> File.
Variable laboratory :
  string -> string -> string -> ResultTree -> Exc ResultTree.

(** What a successful call of [conduct_research] leaves behind. *)
Lemma conduct_research_stores now topic focus w key found :
  api_key (session w) = Some key ->
  truthy key = true ->
  laboratory key "gpt-4o" topic (task_notes focus) = Ok found ->
  conduct_research json_dump write_file laboratory now topic focus w
  = ({| session :=
          {| research_results :=
               Dict.set (strftime now)
                 {| topic := topic; focus_areas := focus; results := found |}
                 (research_results (session w));
             api_key := api_key (session w);
             current_view := Some view_research;
             selected_research := Some (strftime now) |};
        disk :=
          write_file
            (json_dump
               (Dict.set (strftime now)
                  {| topic := topic; focus_areas := focus; results := found |}
                  (research_results (session w))))
            (disk w);
        shown := shown w;
        lab_calls := (topic, task_notes focus) :: lab_calls w |},
     Rerun).
Proof.
  intros Hkey Htruthy Hlab. unfold conduct_research.
  rewrite Hkey, Htruthy, Hlab.
  unfold with_session, save_results, set_selected_research,
    set_current_view, set_results; cbn.
  rewrite ?Hkey. reflexivity.
Qed.

(** Without a key [conduct_research] shows the error and returns. *)
Lemma conduct_research_without_key now topic focus w :
  truthy_opt (api_key (session w)) = false ->
  conduct_research json_dump write_file laboratory now topic focus w
  = (show (error "Please enter your OpenAI API key in the sidebar first!") w,
     Returned false "API key required").
Proof.
  unfold conduct_research, truthy_opt.
  destruct (api_key (session w)) as [key|]; [|reflexivity].
  intros ->. reflexivity.
Qed.

(** *** The selection stays inside the store *)

Lemma record_button_loop_stored click (store entries : Store) acc :
  (forall e, In e entries -> Dict.mem (fst e) store = true) ->
  research_results acc = store ->
  selection_stored acc ->
  research_results (fold_left (record_button click) entries acc) = store
  /\ selection_stored (fold_left (record_button click) entries acc).
Proof.
  revert acc.
  induction entries as [|e entries IH]; intros acc Hin Hstore Hsel;
    cbn [fold_left]; [now split|].
  apply IH.
  - intros e' He'. apply Hin. now right.
  - unfold record_button. destruct click; try exact Hstore.
    now destruct (String.eqb key (fst e)).
  - unfold record_button. destruct click; try exact Hsel.
    destruct (String.eqb key (fst e)); [|exact Hsel].
    unfold selection_stored. cbn. rewrite Hstore. apply Hin. now left.
Qed.

Lemma sidebar_selection_stored widgets w :
  selection_stored (session w) ->
  selection_stored (session (sidebar widgets w)).
Proof.
  intros Hsel. unfold sidebar.
  set (status := show _ _).
  assert (Hstatus : selection_stored (session status)).
  { subst status. destruct (truthy (api_key_input widgets)); exact Hsel. }
  set (fresh := match clicked widgets with
                | NewResearchButton => _
                | _ => _
                end).
  assert (Hfresh : selection_stored (session fresh)).
  { subst fresh. destruct (clicked widgets); exact Hstatus. }
  unfold with_session, record_buttons. cbn [session].
  apply (@record_button_loop_stored (clicked widgets)
           (research_results (session fresh))
           (research_results (session fresh)) (session fresh)).
  - intros [k r] Hin. cbn [fst]. now apply in_mem with r.
  - reflexivity.
  - exact Hfresh.
Qed.

Lemma conduct_research_selection_stored now topic focus w :
  selection_stored (session w) ->
  selection_stored
    (session (fst (conduct_research json_dump write_file laboratory
                     now topic focus w))).
Proof.
  intros Hsel. unfold conduct_research.
  destruct (api_key (session w)) as [key|]; [|exact Hsel].
  destruct (truthy key); [|exact Hsel].
  destruct (laboratory key "gpt-4o" topic (task_notes focus));
    [|exact Hsel].
  unfold selection_stored. cbn. apply mem_set_same.
Qed.

(** From a session whose selection is stored, a run never stops at the
    lookup of the selected record, and its session is of that kind again. *)
Lemma script_run_selection_stored previous f now widgets :
  selection_stored (session (start_run json_load previous f)) ->
  selection_stored
    (session (fst (script_run json_load json_dump write_file laboratory
                     previous f now widgets)))
  /\ forall exception,
       snd (script_run json_load json_dump write_file laboratory
              previous f now widgets)
       <> Uncaught exception.
Proof.
  intros Hstart. unfold script_run.
  pose proof (@sidebar_selection_stored widgets _ Hstart) as Hside.
  set (w := sidebar widgets _) in *. clearbody w.
  unfold main_area.
  set (w1 := match current_view (session w) with
             | Some _ => w
             | None => _
             end).
  assert (H1 : selection_stored (session w1)).
  { subst w1. destruct (current_view (session w)); exact Hside. }
  clearbody w1.
  destruct (current_view (session w1)) as [[|]|].
  - destruct (clicked widgets); try (split; [exact H1 | discriminate]).
    destruct (negb (truthy_opt (api_key (session w1))));
      [split; [exact H1 | discriminate]|].
    destruct (truthy form_topic && truthy form_focus_areas);
      [|split; [exact H1 | discriminate]].
    pose proof (@conduct_research_selection_stored now form_topic
                  form_focus_areas w1 H1) as Hc.
    destruct (conduct_research json_dump write_file laboratory now
                form_topic form_focus_areas w1) as [after [[|] message|]];
      cbn [fst snd] in *; (split; [exact Hc | discriminate]).
  - unfold selection_stored in H1.
    destruct (selected_research (session w1)) as [key|] eqn:Ekey.
    + unfold Dict.mem in H1.
      destruct (Dict.get key (research_results (session w1))) eqn:Eget;
        [|discriminate H1].
      split; [|discriminate].
      cbn [fst]. unfold selection_stored, Dict.mem. now rewrite Ekey, Eget.
    + split; [|discriminate].
      cbn [fst]. unfold selection_stored. now rewrite Ekey.
  - destruct (clicked widgets); try (split; [exact H1 | discriminate]).
    destruct (negb (truthy_opt (api_key (session w1))));
      [split; [exact H1 | discriminate]|].
    destruct (truthy form_topic && truthy form_focus_areas);
      [|split; [exact H1 | discriminate]].
    pose proof (@conduct_research_selection_stored now form_topic
                  form_focus_areas w1 H1) as Hc.
    destruct (conduct_research json_dump write_file laboratory now
                form_topic form_focus_areas w1) as [after [[|] message|]];
      cbn [fst snd] in *; (split; [exact Hc | discriminate]).
Qed.

End AppFacts.

Section Claims.
Variable json_load : string -> Exc Store.
Variable json_dump : Store -> string.
Variable write_file : string -> File -> File.
Variable laboratory :
  string -> string -> string -> ResultTree -> Exc ResultTree.

(** C1, amended: the identifier of a new record is the wall-clock time
    formatted to the second, with no suffix.  The keys of the store stay
    pairwise distinct.  An insert whose timestamp is not yet a key adds it
    at the end, so the key set grows by one; an insert whose timestamp is
    already a key, as for a second insert within one second, replaces the
    record under it and leaves the keys as they are.  In both cases the
    new record is the one found under the timestamp. *)
Theorem C1_insert_keyed_by_second :
  forall now topic focus w key found,
    api_key (session w) = Some key ->
    truthy key = true ->
    laboratory key "gpt-4o" topic (task_notes focus) = Ok found ->
    NoDup (Dict.keys (research_results (session w))) ->
    let before := research_results (session w) in
    let after :=
      research_results
        (session (fst (conduct_research json_dump write_file laboratory
                         now topic focus w))) in
    NoDup (Dict.keys after)
    /\ Dict.keys after
       = (if Dict.mem (strftime now) before
          then Dict.keys before
          else (Dict.keys before ++ [strftime now])%list)
    /\ List.length after
       = (if Dict.mem (strftime now) before
          then List.length before
          else S (List.length before))
    /\ Dict.get (strftime now) after
       = Some {| topic := topic; focus_areas := focus; results := found |}
    /\ (forall other, same_second now other -> strftime other = strftime now).
Proof.
  intros now topic focus w key found Hkey Htruthy Hlab Hnodup before after.
  subst after.
  rewrite (@conduct_research_stores json_dump write_file laboratory
             now topic focus w key found Hkey Htruthy Hlab).
  cbn [fst session research_results]. fold before.
  split; [now apply NoDup_keys_set|].
  split; [apply keys_set|].
  split; [apply length_set|].
  split; [apply get_set|].
  intros other H. symmetry. now apply strftime_same_second.
Qed.

(** C8: without a key, or with an empty one, [conduct_research] returns
    its failure ["API key required"] with the error box shown; the
    laboratory is not called, no record is created, and the session, the
    store and the file are as before. *)
Theorem C8_missing_credential :
  forall now topic focus w,
    api_key (session w) = None \/ api_key (session w) = Some "" ->
    let result :=
      conduct_research json_dump write_file laboratory now topic focus w in
    snd result = Returned false "API key required"
    /\ lab_calls (fst result) = lab_calls w
    /\ session (fst result) = session w
    /\ List.length (research_results (session (fst result)))
       = List.length (research_results (session w))
    /\ disk (fst result) = disk w
    /\ shown (fst result)
       = (shown w
          ++ [error "Please enter your OpenAI API key in the sidebar first!"])%list.
Proof.
  intros now topic focus w Hkey result. subst result.
  rewrite conduct_research_without_key.
  - repeat split.
  - now destruct Hkey as [-> | ->].
Qed.

(** C7, amended: the load fails softly whenever the existence check of the
    file answers.  A missing file gives the empty store; a file that
    cannot be opened, or whose content does not parse, gives the empty
    store as well; a file that parses gives its content.  No exception
    leaves the load in these cases, and nothing is shown: the failure is
    passed over in silence, without a warning. *)
Theorem C7_load_soft_fails :
  initial_results json_load (Stat_answers Absent) = Ok []
  /\ initial_results json_load (Stat_answers Unreadable) = Ok []
  /\ (forall text,
        initial_results json_load (Stat_answers (Content text))
        = Ok match json_load text with
             | Ok loaded => loaded
             | Raise _ => []
             end)
  /\ (forall f,
        initial_results json_load (Stat_answers f)
        = Ok (research_results (session (start_run json_load None f)))
        /\ shown (start_run json_load None f) = []
        /\ disk (start_run json_load None f) = f).
Proof.
  split; [reflexivity|]. split; [reflexivity|]. split.
  - intros text. unfold initial_results. cbn.
    now destruct (json_load text).
  - intros f. split; [|now split].
    unfold initial_results.
    cbn [path_exists start_run session research_results open_and_load].
    unfold load_results.
    destruct (file_exists f); [|reflexivity].
    now destruct (read_results json_load f).
Qed.
End Claims.

(** ** The claims on a concrete run *)

(** C1, as stated, fails: two inserts within one second leave one key, and
    the record of the first is gone. *)
Lemma C1_counterexample :
  let first :=
    fst (conduct_research Lab.json_dump Lab.write_file Lab.laboratory
           Lab.morning "A" "x" (Lab.world_of Lab.keyed_session)) in
  let both_done :=
    fst (conduct_research Lab.json_dump Lab.write_file Lab.laboratory
           Lab.morning_later "B" "y" first) in
  microsecond Lab.morning <> microsecond Lab.morning_later
  /\ Dict.keys (research_results (session first)) = ["2024-05-17 09:30:15"]
  /\ Dict.keys (research_results (session both_done)) = ["2024-05-17 09:30:15"]
  /\ List.length (research_results (session both_done)) = 1
  /\ option_map topic
       (Dict.get "2024-05-17 09:30:15" (research_results (session both_done)))
     = Some "B".
Proof.
  cbv zeta. split; [discriminate|]. repeat split.
Qed.

Lemma C1_insert_keyed_by_second_witness :
  api_key (session (Lab.world_of Lab.keyed_session)) = Some "sk-test"
  /\ truthy "sk-test" = true
  /\ Dict.keys
       (research_results
          (session (fst (conduct_research Lab.json_dump Lab.write_file
                           Lab.laboratory Lab.morning "A" "x"
                           (Lab.world_of Lab.keyed_session)))))
     = ["2024-05-17 09:30:15"].
Proof.
  split; [reflexivity|]. split; [reflexivity|].
  destruct (@C1_insert_keyed_by_second Lab.json_dump Lab.write_file
              Lab.laboratory Lab.morning "A" "x"
              (Lab.world_of Lab.keyed_session) "sk-test"
              (Mapping [("summary", Scalar (VStr "A"))])
              eq_refl eq_refl eq_refl (NoDup_nil string))
    as (_ & Hkeys & _).
  exact Hkeys.
Defined.

(** An empty key in the session: nothing is stored and nobody is called. *)
Lemma C8_missing_credential_witness :
  let w := Lab.world_of (set_api_key (Some "") Lab.viewing_session) in
  (api_key (session w) = None \/ api_key (session w) = Some "")
  /\ snd (conduct_research Lab.json_dump Lab.write_file Lab.laboratory
            Lab.morning "topic" "a,b" w)
     = Returned false "API key required"
  /\ List.length
       (research_results
          (session (fst (conduct_research Lab.json_dump Lab.write_file
                           Lab.laboratory Lab.morning "topic" "a,b" w))))
     = 1.
Proof.
  cbv zeta. split; [right; reflexivity|].
  destruct (@C8_missing_credential Lab.json_dump Lab.write_file Lab.laboratory
              Lab.morning "topic" "a,b"
              (Lab.world_of (set_api_key (Some "") Lab.viewing_session))
              (or_intror eq_refl))
    as (Hresult & _ & _ & Hlength & _).
  split; [exact Hresult | exact Hlength].
Defined.

(** C7, as stated, fails twice.  A file that does not parse gives the empty
    store and no warning: the only box of the first run is the one that
    asks for the key.  And an existence check that fails is not caught:
    its exception leaves the load. *)
Lemma C7_counterexample :
  let run :=
    script_run Lab.json_load Lab.json_dump Lab.write_file Lab.laboratory
      None (Content "{not json") Lab.morning
      {| api_key_input := ""; clicked := NoClick |} in
  Lab.json_load "{not json" = Raise "JSONDecodeError"
  /\ initial_results Lab.json_load (Stat_answers (Content "{not json"))
     = Ok []
  /\ shown (start_run Lab.json_load None (Content "{not json")) = []
  /\ snd run = Finished
  /\ shown (fst run) = [warning "⚠️ Please enter your API key"]
  /\ initial_results Lab.json_load (Stat_fails "PermissionError")
     = Raise "PermissionError".
Proof. cbv zeta. repeat split. Qed.

(** * Further properties *)

(** ** More on the renderer *)

(** Induction on trees: a container has the property when its members do. *)
Lemma ResultTree_induction (P : ResultTree -> Prop) :
  (forall v, P (Scalar v)) ->
  (forall items, Forall P items -> P (Sequence items)) ->
  (forall entries, Forall (fun e => P (snd e)) entries -> P (Mapping entries)) ->
  forall t, P t.
Proof.
  intros Hleaf Hlist Hdict.
  assert (H : forall n t, depth t < n -> P t).
  { induction n as [|n IH]; intros t Hd; [lia|].
    destruct t as [v | items | entries]; cbn [depth] in Hd.
    - apply Hleaf.
    - apply Hlist, Forall_forall. intros item Hin. apply IH.
      apply (depth_below depth) in Hin. lia.
    - apply Hdict, Forall_forall. intros e Hin. apply IH.
      apply (depth_below (fun e => depth (snd e))) in Hin. lia. }
  intros t. apply (H (S (depth t))). lia.
Qed.

Lemma contains_here needle before after :
  contains needle (before ++ needle ++ after) = true.
Proof. apply contains_spec. now exists before, after. Qed.

Lemma contains_app_l needle a b :
  contains needle a = true -> contains needle (a ++ b) = true.
Proof.
  intros H. apply contains_spec in H. destruct H as (x & y & ->).
  apply contains_spec. exists x, (y ++ b). now rewrite !append_assoc.
Qed.

Lemma contains_app_r needle a b :
  contains needle b = true -> contains needle (a ++ b) = true.
Proof.
  intros H. apply contains_spec in H. destruct H as (x & y & ->).
  apply contains_spec. exists (a ++ x), y. now rewrite !append_assoc.
Qed.

(** The text of an entry and of an item is part of the text of the node. *)
Lemma contains_entry needle key value entries level :
  In (key, value) entries ->
  contains needle (entry_text key value level) = true ->
  contains needle (dict_to_markdown (Mapping entries) level) = true.
Proof.
  induction entries as [|[k v] rest IH]; intros Hin Hc; [destruct Hin|].
  rewrite dict_to_markdown_entry. destruct Hin as [Heq | Hin].
  - injection Heq as -> ->. now apply contains_app_l.
  - apply contains_app_r. now apply IH.
Qed.

Lemma contains_item needle item items level :
  In item items ->
  contains needle (item_text item level) = true ->
  contains needle (dict_to_markdown (Sequence items) level) = true.
Proof.
  induction items as [|x rest IH]; intros Hin Hc; [destruct Hin|].
  rewrite dict_to_markdown_item. destruct Hin as [-> | Hin].
  - now apply contains_app_l.
  - apply contains_app_r. now apply IH.
Qed.

Lemma contains_head needle after : contains needle (needle ++ after) = true.
Proof. apply contains_spec. now exists "", after. Qed.

(** Nothing of the tree is left out of the text: the heading of every key,
    at any depth, and the text of every leaf occur in it. *)
Theorem every_key_and_leaf_is_rendered :
  forall t level,
    (forall key, In key (keys_of t) ->
       contains ("### " ++ key ++ nl ++ nl) (dict_to_markdown t level) = true)
    /\ (forall v, In v (leaves_of t) ->
          contains (str v) (dict_to_markdown t level) = true).
Proof.
  induction t as [v | items IH | entries IH] using ResultTree_induction;
    intros level.
  - split; [intros key []|].
    intros w [<- | []]. cbn [dict_to_markdown].
    apply contains_app_r, contains_head.
  - rewrite Forall_forall in IH. split.
    + intros key Hin. cbn [keys_of] in Hin. apply in_flat_map in Hin.
      destruct Hin as (item & Hitem & Hkey).
      apply (@contains_item _ item); [exact Hitem|].
      destruct item as [v | xs | es]; [destruct Hkey | |];
        now apply (IH _ Hitem level).
    + intros v Hin. cbn [leaves_of] in Hin. apply in_flat_map in Hin.
      destruct Hin as (item & Hitem & Hleaf).
      apply (@contains_item _ item); [exact Hitem|].
      destruct item as [w | xs | es]; [| now apply (IH _ Hitem level)..].
      destruct Hleaf as [<- | []]. cbn [item_text].
      apply contains_app_r, contains_app_r, contains_head.
  - rewrite Forall_forall in IH. split.
    + intros key Hin. cbn [keys_of] in Hin. apply in_flat_map in Hin.
      destruct Hin as ([k value] & Hentry & Hkey). cbn [fst snd] in Hkey.
      apply (@contains_entry _ k value); [exact Hentry|].
      destruct Hkey as [<- | Hkey].
      * unfold entry_text. apply contains_app_r.
        apply contains_spec. eexists "", _.
        rewrite !append_assoc. reflexivity.
      * destruct value as [v | xs | es]; [destruct Hkey | |];
          unfold entry_text; do 5 apply contains_app_r;
          now apply (IH _ Hentry (S level)).
    + intros v Hin. cbn [leaves_of] in Hin. apply in_flat_map in Hin.
      destruct Hin as ([k value] & Hentry & Hleaf). cbn [snd] in Hleaf.
      apply (@contains_entry _ k value); [exact Hentry|].
      unfold entry_text. do 5 apply contains_app_r.
      destruct value as [w | xs | es];
        [| now apply (IH _ Hentry (S level))..].
      destruct Hleaf as [<- | []].
      destruct (is_markdown w).
      * apply contains_head.
      * do 2 apply contains_app_r. apply contains_head.
Qed.

Lemma leb_max a b n :
  (Nat.max a b <=? n)%nat = ((a <=? n) && (b <=? n))%nat.
Proof.
  destruct (Nat.leb_spec a n), (Nat.leb_spec b n),
    (Nat.leb_spec (Nat.max a b) n); cbn; try reflexivity; lia.
Qed.

Lemma both_if (p q : bool) (a b : string) :
  both (if p then Some a else None) (if q then Some b else None)
  = if p && q then Some (a ++ b) else None.
Proof. now destruct p, q. Qed.

(** The call returns the text exactly when the stack has the units the
    tree needs, and overflows otherwise: its own frame and, beside it, room
    for its built-in calls and for the recursive call on each of its
    containers. *)
Theorem dict_to_markdown_within_exact :
  forall overhead frames t level,
    dict_to_markdown_within overhead frames t level
    = if (stack_need overhead t <=? frames)%nat
      then Some (dict_to_markdown t level)
      else None.
Proof.
  intros overhead.
  induction frames as [|frames IH]; intros t level;
    [now destruct t|].
  destruct t as [v | items | entries]; cbn [stack_need].
  - rewrite within_scalar. cbn [Nat.leb]. now rewrite Nat.max_0_r.
  - rewrite within_sequence. cbn [Nat.leb]. rewrite leb_max.
    destruct (overhead (Sequence items) <=? frames)%nat; [|reflexivity].
    cbn [andb].
    induction items as [|item rest IHrest]; [reflexivity|].
    unfold items_within. cbn [fold_right map].
    fold (items_within overhead frames rest level).
    unfold list_max in *. cbn [fold_right].
    rewrite leb_max, dict_to_markdown_item.
    destruct (items_within overhead frames rest level) as [body|].
    + destruct (fold_right Nat.max 0 _ <=? frames)%nat; [|discriminate IHrest].
      assert (Hrest : body ++ nl = dict_to_markdown (Sequence rest) level)
        by congruence.
      rewrite <- Hrest. unfold item_within.
      destruct item as [v | xs | es];
        [cbn [both andb Nat.leb]; now rewrite append_assoc | |];
        (rewrite IH;
         match goal with
         | |- context [(?need <=? frames)%nat] =>
             destruct (need <=? frames)%nat
         end; cbn [both andb item_text]; [now rewrite append_assoc|
                                         reflexivity]).
    + destruct (fold_right Nat.max 0 _ <=? frames)%nat; [discriminate IHrest|].
      rewrite andb_false_r. unfold both.
      now destruct (item_within overhead frames item level).
  - rewrite within_mapping. cbn [Nat.leb]. rewrite leb_max.
    destruct (overhead (Mapping entries) <=? frames)%nat; [|reflexivity].
    cbn [andb].
    induction entries as [|[key value] rest IHrest]; [reflexivity|].
    unfold entries_within. cbn [fold_right map fst snd].
    fold (entries_within overhead frames rest level).
    unfold list_max in *. cbn [fold_right].
    rewrite leb_max, dict_to_markdown_entry, IHrest.
    unfold entry_within.
    destruct value as [v | xs | es];
      [cbn [Nat.leb andb]; now rewrite (both_if true) | |];
      (rewrite IH;
       match goal with
       | |- context [(?need <=? frames)%nat && _] =>
           destruct (need <=? frames)%nat
       end; cbn [andb entry_text];
       [now rewrite (both_if true) | now cbn [both]]).
Qed.

Lemma repeat_str_comm s n : repeat_str s n ++ s = s ++ repeat_str s n.
Proof.
  induction n as [|n IH]; cbn [repeat_str].
  - now rewrite append_nil_r.
  - now rewrite append_assoc, IH.
Qed.

(** Lists inside lists are flattened: a container wrapped in [n] one-item
    lists is rendered like the container itself, at the same level,
    followed by [n] empty lines. *)
Theorem nested_lists_are_flattened :
  forall n inner level,
    is_container inner = true ->
    dict_to_markdown (nest_list n inner) level
    = dict_to_markdown inner level ++ repeat_str nl n.
Proof.
  intros n inner level Hinner.
  induction n as [|n IH]; cbn [nest_list repeat_str].
  - now rewrite append_nil_r.
  - rewrite dict_to_markdown_item, dict_to_markdown_no_item.
    replace (item_text (nest_list n inner) level)
      with (dict_to_markdown (nest_list n inner) level).
    + rewrite IH, append_assoc. now rewrite repeat_str_comm.
    + destruct n; [|reflexivity]. cbn [nest_list].
      now destruct inner.
Qed.

Lemma nested_lists_are_flattened_witness :
  is_container (Sequence [Scalar (VStr "a"); Scalar (VInt 2)]) = true
  /\ dict_to_markdown
       (nest_list 3 (Sequence [Scalar (VStr "a"); Scalar (VInt 2)])) 1
     = dict_to_markdown (Sequence [Scalar (VStr "a"); Scalar (VInt 2)]) 1
       ++ repeat_str nl 3.
Proof.
  split; [reflexivity|].
  apply (@nested_lists_are_flattened 3
           (Sequence [Scalar (VStr "a"); Scalar (VInt 2)]) 1).
  reflexivity.
Defined.

(** The text of a dictionary is the text of its entries one after the
    other: joining two dictionaries joins their texts, and the items put in
    front of a list put their texts in front of the text of the list. *)
Theorem dict_to_markdown_app :
  forall level,
    (forall first second,
       dict_to_markdown (Mapping (first ++ second)%list) level
       = dict_to_markdown (Mapping first) level
         ++ dict_to_markdown (Mapping second) level)
    /\ (forall first second,
          dict_to_markdown (Sequence (first ++ second)%list) level
          = fold_right append (dict_to_markdown (Sequence second) level)
              (map (fun item => item_text item level) first)).
Proof.
  intros level. split; intros first second.
  - induction first as [|[key value] first IH]; [reflexivity|].
    cbn [app]. now rewrite !dict_to_markdown_entry, IH, append_assoc.
  - induction first as [|item first IH]; [reflexivity|].
    cbn [app map fold_right]. now rewrite dict_to_markdown_item, IH.
Qed.

Lemma contains_longer needle more hay :
  contains (needle ++ more) hay = true -> contains needle hay = true.
Proof.
  intros H. apply contains_spec in H. destruct H as (before & after & ->).
  apply contains_spec. exists before, (more ++ after).
  now rewrite append_assoc.
Qed.

(** Of the five markers three decide: a text counts as markdown exactly when
    it holds a [#], two [*] in a row or a [-]. *)
Theorem is_markdown_three_markers :
  forall s,
    is_markdown (VStr s) = contains "#" s || contains "**" s || contains "-" s.
Proof.
  intros s. cbn [is_markdown markers existsb].
  destruct (contains "#" s) eqn:Hash.
  - now rewrite !orb_true_r.
  - assert (H2 : contains "##" s = false).
    { destruct (contains "##" s) eqn:E; [|reflexivity].
      apply (@contains_longer "#" "#") in E. congruence. }
    assert (H3 : contains "###" s = false).
    { destruct (contains "###" s) eqn:E; [|reflexivity].
      apply (@contains_longer "#" "##") in E. congruence. }
    rewrite H2, H3. cbn [orb]. now rewrite orb_false_r.
Qed.

(** ** The name of the download *)

Lemma nat_of_lower_char c :
  is_upper c = true -> nat_of_ascii (lower_char c) = nat_of_ascii c + 32.
Proof.
  unfold lower_char. intros H. rewrite H.
  apply nat_ascii_embedding.
  unfold is_upper in H. apply andb_true_iff in H. destruct H as [_ H].
  apply Nat.leb_le in H. lia.
Qed.

Lemma is_upper_lower_char c : is_upper (lower_char c) = false.
Proof.
  destruct (is_upper c) eqn:E.
  - unfold is_upper at 1. rewrite (nat_of_lower_char _ E).
    unfold is_upper in E. apply andb_true_iff in E. destruct E as [E _].
    apply Nat.leb_le in E. apply andb_false_iff. right.
    apply Nat.leb_gt. lia.
  - unfold lower_char. now rewrite E.
Qed.

Lemma lower_char_not_space c : c <> " "%char -> lower_char c <> " "%char.
Proof.
  intros Hc. destruct (is_upper c) eqn:E.
  - intros H. apply (f_equal nat_of_ascii) in H.
    rewrite (nat_of_lower_char _ E) in H.
    change (nat_of_ascii " ") with 32 in H.
    unfold is_upper in E. apply andb_true_iff in E. destruct E as [E _].
    apply Nat.leb_le in E. lia.
  - unfold lower_char. now rewrite E.
Qed.

Lemma count_if_app p a b : count_if p (a ++ b) = count_if p a + count_if p b.
Proof.
  induction a as [|c a IH]; [reflexivity|].
  cbn [append count_if]. rewrite IH. lia.
Qed.

Lemma count_char_app c a b : count_char c (a ++ b) = count_char c a + count_char c b.
Proof.
  induction a as [|d a IH]; [reflexivity|].
  cbn [append count_char]. rewrite IH. lia.
Qed.

Lemma length_append a b :
  String.length (a ++ b) = String.length a + String.length b.
Proof.
  induction a as [|c a IH]; [reflexivity|].
  cbn [append String.length]. now rewrite IH.
Qed.

Lemma slug_facts s :
  String.length (replace_char " " "_" (lower s)) = String.length s
  /\ count_char " " (replace_char " " "_" (lower s)) = 0
  /\ count_if is_upper (replace_char " " "_" (lower s)) = 0.
Proof.
  induction s as [|c s (IHlen & IHsp & IHup)]; [repeat split|].
  cbn [lower replace_char String.length count_char count_if].
  rewrite IHlen, IHsp, IHup. split; [reflexivity|].
  destruct (Ascii.eqb_spec (lower_char c) " ") as [E | E].
  - split; reflexivity.
  - split.
    + now destruct (Ascii.eqb_spec (lower_char c) " ").
    + now rewrite is_upper_lower_char.
Qed.

Lemma lower_char_underscore c :
  Ascii.eqb (lower_char c) "_" = Ascii.eqb c "_".
Proof.
  destruct (is_upper c) eqn:Eu; [|unfold lower_char; now rewrite Eu].
  pose proof (nat_of_lower_char _ Eu) as Hn.
  unfold is_upper in Eu. apply andb_true_iff in Eu. destruct Eu as [Eu1 Eu2].
  apply Nat.leb_le in Eu1. apply Nat.leb_le in Eu2.
  destruct (Ascii.eqb_spec (lower_char c) "_") as [E | _].
  - rewrite E in Hn. change (nat_of_ascii "_") with 95 in Hn. lia.
  - destruct (Ascii.eqb_spec c "_") as [-> | _]; [|reflexivity].
    change (nat_of_ascii "_") with 95 in Eu2. lia.
Qed.

(** The words of the topic keep their places in the slug: a space of the
    topic is an underscore of the slug and the other way round, unless the
    topic has underscores of its own. *)
Lemma slug_underscores s :
  count_char "_" (replace_char " " "_" (lower s))
  = count_char " " s + count_char "_" s.
Proof.
  induction s as [|c s IH]; [reflexivity|].
  cbn [lower replace_char count_char]. rewrite IH.
  destruct (Ascii.eqb_spec c " ") as [-> | Hsp].
  - change (lower_char " ") with " "%char.
    rewrite !Ascii.eqb_refl. change (Ascii.eqb " " "_") with false.
    cbv iota. lia.
  - apply lower_char_not_space in Hsp.
    apply Ascii.eqb_neq in Hsp. rewrite Hsp, lower_char_underscore.
    destruct (Ascii.eqb c "_"); lia.
Qed.

(** The file name offered for an ASCII topic is [research_], the slug and
    [.md]: as long as the topic plus twelve characters, with no space and
    no capital letter in it, and with an underscore for each space of the
    topic. *)
Theorem file_name_is_a_slug :
  forall topic,
    is_ascii topic = true ->
    String.length (file_name topic) = String.length topic + 12
    /\ count_char " " (file_name topic) = 0
    /\ count_if is_upper (file_name topic) = 0
    /\ count_char "_" (file_name topic)
       = 1 + count_char " " topic + count_char "_" topic.
Proof.
  intros topic _. unfold file_name.
  destruct (slug_facts topic) as (Hlen & Hsp & Hup).
  rewrite !length_append, !count_char_app, !count_if_app.
  rewrite Hlen, Hsp, Hup, slug_underscores. cbn. repeat split; lia.
Qed.

Lemma file_name_is_a_slug_witness :
  is_ascii "Graph Neural Nets" = true
  /\ file_name "Graph Neural Nets" = "research_graph_neural_nets.md"
  /\ count_char " " (file_name "Graph Neural Nets") = 0.
Proof.
  split; [reflexivity|]. split; [reflexivity|].
  destruct (@file_name_is_a_slug "Graph Neural Nets" eq_refl)
    as (_ & H & _).
  exact H.
Defined.

(** ** Timestamps *)

Lemma digit_inj a b : digit a = digit b -> a mod 10 = b mod 10.
Proof.
  unfold digit. intros H. apply (f_equal nat_of_ascii) in H.
  pose proof (Nat.mod_upper_bound a 10). pose proof (Nat.mod_upper_bound b 10).
  rewrite !nat_ascii_embedding in H by lia. lia.
Qed.

Lemma pad2_inj a b : a < 100 -> b < 100 -> pad2 a = pad2 b -> a = b.
Proof.
  unfold pad2. intros Ha Hb H.
  remember (a / 10) as qa eqn:Eqa. remember (b / 10) as qb eqn:Eqb.
  injection H as H1 H0. apply digit_inj in H1, H0. subst qa qb.
  pose proof (Nat.div_mod_eq a 10). pose proof (Nat.div_mod_eq b 10).
  assert (a / 10 < 10) by (apply Nat.Div0.div_lt_upper_bound; lia).
  assert (b / 10 < 10) by (apply Nat.Div0.div_lt_upper_bound; lia).
  rewrite !Nat.mod_small in H1 by lia. lia.
Qed.

Lemma pad4_inj a b : a < 100 * 100 -> b < 100 * 100 -> pad4 a = pad4 b -> a = b.
Proof.
  unfold pad4, pad2. intros Ha Hb H.
  remember (a / 1000) as a3 eqn:Ea3. remember (b / 1000) as b3 eqn:Eb3.
  remember (a / 100) as a2 eqn:Ea2. remember (b / 100) as b2 eqn:Eb2.
  remember (a / 10) as a1 eqn:Ea1. remember (b / 10) as b1 eqn:Eb1.
  injection H as H3 H2 H1 H0.
  apply digit_inj in H3, H2, H1, H0. subst a3 b3 a2 b2 a1 b1.
  pose proof (Nat.div_mod_eq a 10). pose proof (Nat.div_mod_eq b 10).
  pose proof (Nat.div_mod_eq (a / 10) 10).
  pose proof (Nat.div_mod_eq (b / 10) 10).
  pose proof (Nat.div_mod_eq (a / 100) 10).
  pose proof (Nat.div_mod_eq (b / 100) 10).
  rewrite !Nat.Div0.div_div in *.
  change (10 * 10) with 100 in *. change (100 * 10) with 1000 in *.
  assert (a / 1000 < 10) by (apply Nat.Div0.div_lt_upper_bound; lia).
  assert (b / 1000 < 10) by (apply Nat.Div0.div_lt_upper_bound; lia).
  rewrite !Nat.mod_small in H3 by lia. lia.
Qed.

(** The identifier has nineteen characters, and within the years 1000 to
    9999 it names its second: two clock readings get the same identifier
    only if they fall in the same second. *)
Theorem strftime_names_the_second :
  forall a b,
    valid_datetime a -> valid_datetime b ->
    String.length (strftime a) = 19
    /\ (strftime a = strftime b <-> same_second a b).
Proof.
  intros a b Ha Hb. split; [reflexivity|].
  split; [|apply strftime_same_second].
  unfold valid_datetime in Ha, Hb. unfold strftime, same_second.
  intros H.
  assert (Hy : pad4 (year a) = pad4 (year b)
               /\ pad2 (month a) = pad2 (month b)
               /\ pad2 (day a) = pad2 (day b)
               /\ pad2 (hour a) = pad2 (hour b)
               /\ pad2 (minute a) = pad2 (minute b)
               /\ pad2 (second a) = pad2 (second b)).
  { unfold pad4, pad2 in *.
    remember (year a / 1000) as ya3. remember (year b / 1000) as yb3.
    remember (year a / 100) as ya2. remember (year b / 100) as yb2.
    remember (year a / 10) as ya1. remember (year b / 10) as yb1.
    remember (month a / 10) as ma. remember (month b / 10) as mb.
    remember (day a / 10) as da. remember (day b / 10) as db.
    remember (hour a / 10) as ha. remember (hour b / 10) as hb.
    remember (minute a / 10) as mia. remember (minute b / 10) as mib.
    remember (second a / 10) as sa. remember (second b / 10) as sb.
    cbn [append] in H. injection H as H. repeat split; congruence. }
  destruct Hy as (Hy & Hmo & Hd & Hh & Hmi & Hs).
  split; [apply pad4_inj; [lia | lia | exact Hy]|].
  repeat split; apply pad2_inj; try assumption; lia.
Qed.

Lemma strftime_names_the_second_witness :
  valid_datetime Lab.morning /\ valid_datetime Archive.noon
  /\ (strftime Lab.morning = strftime Archive.noon
      <-> same_second Lab.morning Archive.noon).
Proof.
  assert (Ha : valid_datetime Lab.morning)
    by (unfold valid_datetime; cbn; lia).
  assert (Hb : valid_datetime Archive.noon)
    by (unfold valid_datetime; cbn; lia).
  split; [exact Ha|]. split; [exact Hb|].
  exact (proj2 (@strftime_names_the_second Lab.morning Archive.noon Ha Hb)).
Defined.

(** ** Runs of the script *)

Section Runs.
Variable json_load : string -> Exc Store.
Variable json_dump : Store -> string.
Variable write_file : string -> File -> File.
Variable laboratory :
  string -> string -> string -> ResultTree -> Exc ResultTree.

(** The buttons of the list touch neither the store nor the key. *)
Lemma record_button_loop_frame click (entries : Store) acc :
  research_results (fold_left (record_button click) entries acc)
  = research_results acc
  /\ api_key (fold_left (record_button click) entries acc) = api_key acc.
Proof.
  revert acc. induction entries as [|e entries IH]; intros acc;
    cbn [fold_left]; [now split|].
  destruct (IH (record_button click acc e)) as [Hr Hk].
  rewrite Hr, Hk. unfold record_button.
  destruct click; try now split.
  now destruct (String.eqb key (fst e)).
Qed.

Lemma record_button_loop_selected key (entries : Store) acc :
  current_view acc = Some view_research ->
  selected_research acc = Some key ->
  current_view (fold_left (record_button (RecordButton key)) entries acc)
  = Some view_research
  /\ selected_research (fold_left (record_button (RecordButton key)) entries acc)
     = Some key.
Proof.
  revert acc. induction entries as [|e entries IH]; intros acc Hv Hs;
    cbn [fold_left]; [now split|].
  apply IH; unfold record_button;
    destruct (String.eqb_spec key (fst e)) as [-> | _]; auto.
Qed.

(** The button of a stored key selects it. *)
Lemma record_button_loop_present key (entries : Store) acc :
  In key (Dict.keys entries) ->
  current_view (fold_left (record_button (RecordButton key)) entries acc)
  = Some view_research
  /\ selected_research (fold_left (record_button (RecordButton key)) entries acc)
     = Some key.
Proof.
  revert acc. induction entries as [|e entries IH]; intros acc Hin;
    [destruct Hin|].
  cbn [fold_left]. unfold record_button at 2 4.
  destruct (String.eqb_spec key (fst e)) as [-> | Hne].
  - now apply record_button_loop_selected.
  - apply IH. destruct Hin as [Heq | Hin]; [congruence | exact Hin].
Qed.

Lemma record_buttons_elsewhere click s :
  (forall key, click <> RecordButton key) -> record_buttons click s = s.
Proof.
  intros Hclick. unfold record_buttons.
  generalize (research_results s) as entries.
  induction entries as [|e entries IH]; [reflexivity|].
  cbn [fold_left]. unfold record_button at 2.
  destruct click; try exact IH. now destruct (Hclick key).
Qed.

(** The sidebar writes no file, calls nobody and keeps the store; the key
    is the one typed in, or the one of the session when the field is empty;
    one box is shown, on whether there is a key. *)
Lemma sidebar_effects widgets w :
  disk (sidebar widgets w) = disk w
  /\ lab_calls (sidebar widgets w) = lab_calls w
  /\ research_results (session (sidebar widgets w))
     = research_results (session w)
  /\ api_key (session (sidebar widgets w))
     = (if truthy (api_key_input widgets)
        then Some (api_key_input widgets)
        else api_key (session w))
  /\ shown (sidebar widgets w)
     = (shown w
        ++ [if truthy_opt (api_key (session (sidebar widgets w)))
            then success "✅ API Key set"
            else warning "⚠️ Please enter your API key"])%list.
Proof.
  unfold sidebar.
  set (fresh := match clicked widgets with
                | NewResearchButton => _
                | _ => _
                end).
  unfold with_session at 1 2 3 4 5 6. cbn [disk lab_calls session shown].
  destruct (record_button_loop_frame (clicked widgets)
              (research_results (session fresh)) (session fresh))
    as [Hr Hk].
  unfold record_buttons. rewrite Hr, Hk. subst fresh.
  destruct (truthy (api_key_input widgets)), (clicked widgets);
    cbn; repeat split.
Qed.

(** The form, submitted or not: what it does to the world it is run in. *)
Lemma form_effects now widgets w :
  let r :=
    match clicked widgets with
    | StartResearch form_topic form_focus_areas =>
        if negb (truthy_opt (api_key (session w)))
        then (show (error "Please enter your OpenAI API key in the sidebar first!") w,
              Finished)
        else if truthy form_topic && truthy form_focus_areas
        then match conduct_research json_dump write_file laboratory
                     now form_topic form_focus_areas w with
             | (after, Returned true message) =>
                 (show (success message) after, Finished)
             | (after, Returned false message) =>
                 (show (error message) after, Finished)
             | (after, Rerun) => (after, Restarted)
             end
        else (w, Finished)
    | _ => (w, Finished)
    end in
  (session (fst r) = session w /\ disk (fst r) = disk w
   /\ lab_calls (fst r) = lab_calls w /\ snd r = Finished)
  \/ (exists topic focus key,
        clicked widgets = StartResearch topic focus
        /\ truthy topic = true /\ truthy focus = true
        /\ api_key (session w) = Some key /\ truthy key = true
        /\ lab_calls (fst r) = (topic, task_notes focus) :: lab_calls w
        /\ ((exists message,
               laboratory key "gpt-4o" topic (task_notes focus) = Raise message
               /\ session (fst r) = session w /\ disk (fst r) = disk w
               /\ shown (fst r)
                  = (shown w
                     ++ [error ("Error during research: " ++ message)])%list
               /\ snd r = Finished)
            \/ (exists found,
                  laboratory key "gpt-4o" topic (task_notes focus) = Ok found
                  /\ session (fst r)
                     = {| research_results :=
                            Dict.set (strftime now)
                              {| topic := topic; focus_areas := focus;
                                 results := found |}
                              (research_results (session w));
                          api_key := api_key (session w);
                          current_view := Some view_research;
                          selected_research := Some (strftime now) |}
                  /\ disk (fst r)
                     = write_file
                         (json_dump (research_results (session (fst r))))
                         (disk w)
                  /\ shown (fst r) = shown w
                  /\ snd r = Restarted))).
Proof.
  intros r. subst r.
  destruct (clicked widgets) as [ | | key | t fo | ];
    try (left; now repeat split).
  destruct (truthy_opt (api_key (session w))) eqn:Ekey; cbn [negb];
    [|left; now repeat split].
  destruct (truthy t) eqn:Et; [|left; now repeat split].
  destruct (truthy fo) eqn:Efo; cbn [andb]; [|left; now repeat split].
  unfold truthy_opt in Ekey.
  destruct (api_key (session w)) as [key|] eqn:Eapi; [|discriminate Ekey].
  right. exists t, fo, key. do 5 (split; [reflexivity || assumption|]).
  destruct (laboratory key "gpt-4o" t (task_notes fo)) as [found | message]
    eqn:Elab.
  - rewrite (@conduct_research_stores json_dump write_file laboratory
               now t fo w key found Eapi Ekey Elab).
    cbn [fst snd lab_calls]. split; [reflexivity|].
    right. exists found. rewrite Eapi. now repeat split.
  - unfold conduct_research. rewrite Eapi, Ekey, Elab.
    cbn [fst snd lab_calls]. split; [reflexivity|].
    left. exists message. now repeat split.
Qed.

(** The main area on the world the sidebar leaves: the record view reads
    and changes nothing, the form does what [form_effects] says. *)
Lemma main_area_effects now widgets w :
  let r := main_area json_dump write_file laboratory now widgets w in
  (research_results (session (fst r)) = research_results (session w)
   /\ api_key (session (fst r)) = api_key (session w)
   /\ selected_research (session (fst r)) = selected_research (session w)
   /\ current_view (session (fst r))
      = Some match current_view (session w) with
             | Some v => v
             | None => new_research
             end
   /\ disk (fst r) = disk w
   /\ lab_calls (fst r) = lab_calls w /\ snd r <> Restarted)
  \/ (current_view (session w) <> Some view_research
      /\ exists topic focus key,
        clicked widgets = StartResearch topic focus
        /\ truthy topic = true /\ truthy focus = true
        /\ api_key (session w) = Some key /\ truthy key = true
        /\ api_key (session (fst r)) = Some key
        /\ lab_calls (fst r) = (topic, task_notes focus) :: lab_calls w
        /\ ((exists message,
               laboratory key "gpt-4o" topic (task_notes focus) = Raise message
               /\ research_results (session (fst r))
                  = research_results (session w)
               /\ selected_research (session (fst r))
                  = selected_research (session w)
               /\ current_view (session (fst r)) = Some new_research
               /\ disk (fst r) = disk w
               /\ shown (fst r)
                  = (shown w
                     ++ [error ("Error during research: " ++ message)])%list
               /\ snd r = Finished)
            \/ (exists found,
                  laboratory key "gpt-4o" topic (task_notes focus) = Ok found
                  /\ research_results (session (fst r))
                     = Dict.set (strftime now)
                         {| topic := topic; focus_areas := focus;
                            results := found |}
                         (research_results (session w))
                  /\ selected_research (session (fst r)) = Some (strftime now)
                  /\ current_view (session (fst r)) = Some view_research
                  /\ disk (fst r)
                     = write_file
                         (json_dump (research_results (session (fst r))))
                         (disk w)
                  /\ shown (fst r) = shown w
                  /\ snd r = Restarted))).
Proof.
  intros r. subst r. unfold main_area.
  set (w1 := match current_view (session w) with
             | Some _ => w
             | None => _
             end).
  assert (H1 : research_results (session w1) = research_results (session w)
               /\ api_key (session w1) = api_key (session w)
               /\ selected_research (session w1)
                  = selected_research (session w)
               /\ current_view (session w1)
                  = Some match current_view (session w) with
                         | Some v => v
                         | None => new_research
                         end
               /\ disk w1 = disk w /\ lab_calls w1 = lab_calls w
               /\ shown w1 = shown w).
  { subst w1. destruct (current_view (session w)) eqn:E; cbn;
      now repeat split. }
  clearbody w1. destruct H1 as (Hr & Hk & Hs & Hv & Hd & Hl & Hsh).
  destruct (current_view (session w1)) as [[|]|] eqn:Ev1;
    [| |discriminate Hv].
  - assert (Hform : current_view (session w) <> Some view_research).
    { intros E. rewrite E in Hv. discriminate Hv. }
    pose proof (form_effects now widgets w1) as HF. cbv zeta in HF.
    match goal with
    | |- context [snd ?x <> Restarted] => set (res := x) in *
    end.
    clearbody res.
    destruct HF as [(Hs1 & Hd1 & Hl1 & Ho)
                   | (t & fo & key & Hc & Ht & Hfo & Hkey & Htk & Hcalls
                      & Hlab)].
    + left. rewrite Hs1, Hd1, Hl1, Ho.
      repeat split; congruence.
    + right. split; [exact Hform|]. exists t, fo, key.
      destruct Hlab as [(m & Hm & Hs1 & Hd1 & Hsh1 & Ho)
                       | (found & Hm & Hs1 & Hd1 & Hsh1 & Ho)].
      * do 4 (split; [congruence|]). split; [exact Htk|].
        split; [congruence|]. split; [congruence|].
        left. exists m. rewrite Hs1.
        repeat split; congruence.
      * do 4 (split; [congruence|]). split; [exact Htk|].
        split; [rewrite Hs1; cbn; congruence|]. split; [congruence|].
        right. exists found. split; [exact Hm|].
        split; [rewrite Hs1; cbn; congruence|].
        split; [now rewrite Hs1|]. split; [now rewrite Hs1|].
        split; [congruence|]. split; [congruence | exact Ho].
  - left.
    destruct (selected_research (session w1)) eqn:Esel;
      [destruct (Dict.get _ _)|]; cbn [fst snd];
      repeat split; congruence.
Qed.

(** The cases of one run, for the theorems below. *)
Lemma script_run_cases :
  forall previous f now widgets,
    let start := start_run json_load previous f in
    let run :=
      script_run json_load json_dump write_file laboratory
        previous f now widgets in
    let before := research_results (session start) in
    (research_results (session (fst run)) = before
     /\ disk (fst run) = f
     /\ lab_calls (fst run) = []
     /\ snd run <> Restarted)
    \/ (exists topic focus key,
          clicked widgets = StartResearch topic focus
          /\ truthy topic = true /\ truthy focus = true
          /\ api_key (session (fst run)) = Some key /\ truthy key = true
          /\ lab_calls (fst run) = [(topic, task_notes focus)]
          /\ ((exists message,
                 laboratory key "gpt-4o" topic (task_notes focus)
                 = Raise message
                 /\ research_results (session (fst run)) = before
                 /\ disk (fst run) = f
                 /\ shown (fst run)
                    = (shown (sidebar widgets start)
                       ++ [error ("Error during research: " ++ message)])%list
                 /\ snd run = Finished)
              \/ (exists found,
                    laboratory key "gpt-4o" topic (task_notes focus)
                    = Ok found
                    /\ research_results (session (fst run))
                       = Dict.set (strftime now)
                           {| topic := topic; focus_areas := focus;
                              results := found |} before
                    /\ selected_research (session (fst run))
                       = Some (strftime now)
                    /\ current_view (session (fst run)) = Some view_research
                    /\ disk (fst run)
                       = write_file
                           (json_dump (research_results (session (fst run))))
                           f
                    /\ snd run = Restarted))).
Proof.
  intros previous f now widgets start run before.
  subst run before. unfold script_run. fold start.
  destruct (sidebar_effects widgets start) as (Hd & Hl & Hr & _ & _).
  change (disk start) with f in Hd.
  change (lab_calls start) with (@nil (string * ResultTree)) in Hl.
  pose proof (main_area_effects now widgets (sidebar widgets start)) as HM.
  cbv zeta in HM. rewrite Hd, Hl, Hr in HM.
  destruct HM as [(H1 & _ & _ & _ & H2 & H3 & H4)
                 | (_ & t & fo & key & Hc & Ht & Hfo & _ & Htk & Hkey
                    & Hcalls & Hlab)].
  - left. now repeat split.
  - right. exists t, fo, key. do 6 (split; [assumption|]).
    destruct Hlab as [(m & Hm & H1 & _ & _ & H2 & Hsh & Ho)
                     | (found & Hm & H1 & H2 & H3 & H4 & _ & Ho)].
    + left. exists m. now repeat split.
    + right. exists found. now repeat split.
Qed.

(** What one run can do.  Either it leaves the store and the file alone and
    calls nobody; or the form was submitted with a key, a topic and focus
    areas, and the laboratory was called once, with them.  Then a failure
    of the laboratory leaves store and file alone and is shown as an
    error, while a result is stored under the timestamp, the whole store
    is written out and the script restarts on the new record. *)
Theorem script_run_effects :
  forall previous f now widgets,
    let start := start_run json_load previous f in
    let run :=
      script_run json_load json_dump write_file laboratory
        previous f now widgets in
    let before := research_results (session start) in
    (research_results (session (fst run)) = before
     /\ disk (fst run) = f
     /\ lab_calls (fst run) = []
     /\ snd run <> Restarted)
    \/ (exists topic focus key,
          clicked widgets = StartResearch topic focus
          /\ truthy topic = true /\ truthy focus = true
          /\ api_key (session (fst run)) = Some key /\ truthy key = true
          /\ lab_calls (fst run) = [(topic, task_notes focus)]
          /\ ((exists message,
                 laboratory key "gpt-4o" topic (task_notes focus)
                 = Raise message
                 /\ research_results (session (fst run)) = before
                 /\ disk (fst run) = f
                 /\ In (error ("Error during research: " ++ message))
                      (shown (fst run))
                 /\ snd run = Finished)
              \/ (exists found,
                    laboratory key "gpt-4o" topic (task_notes focus)
                    = Ok found
                    /\ research_results (session (fst run))
                       = Dict.set (strftime now)
                           {| topic := topic; focus_areas := focus;
                              results := found |} before
                    /\ selected_research (session (fst run))
                       = Some (strftime now)
                    /\ current_view (session (fst run)) = Some view_research
                    /\ disk (fst run)
                       = write_file
                           (json_dump (research_results (session (fst run))))
                           f
                    /\ snd run = Restarted))).
Proof.
  intros previous f now widgets start run before.
  pose proof (script_run_cases previous f now widgets) as HE.
  cbv zeta in HE. fold start in HE. fold run in HE. fold before in HE.
  destruct HE
    as [Hidle | (t & fo & key & Hc & Ht & Hfo & Hkey & Htk & Hcalls & Hlab)];
    [now left|].
  right. exists t, fo, key. do 6 (split; [assumption|]).
  destruct Hlab as [(m & Hm & Hr & Hd & Hsh & Ho) | Hstored];
    [left | now right].
  exists m. repeat split; try assumption.
  rewrite Hsh. apply in_or_app. right. now left.
Qed.

(** Nothing but the field of the sidebar changes the key: after a run the
    session holds the key typed in, or, when the field was empty, the key
    it held before. *)
Theorem script_run_keeps_key :
  forall previous f now widgets,
    api_key
      (session (fst (script_run json_load json_dump write_file laboratory
                       previous f now widgets)))
    = if truthy (api_key_input widgets)
      then Some (api_key_input widgets)
      else api_key (session (start_run json_load previous f)).
Proof.
  intros previous f now widgets. unfold script_run.
  destruct (sidebar_effects widgets (start_run json_load previous f))
    as (_ & _ & _ & Hk & _).
  pose proof (main_area_effects now widgets
                (sidebar widgets (start_run json_load previous f))) as HM.
  cbv zeta in HM.
  destruct HM as [(_ & H & _) | (_ & t & fo & key & _ & _ & _ & H1 & _ & H2 & _)];
    congruence.
Qed.

(** The session after the sidebar when neither of its buttons was clicked:
    the one before, with the key typed in. *)
Lemma sidebar_idle widgets w :
  clicked widgets <> NewResearchButton ->
  (forall key, clicked widgets <> RecordButton key) ->
  session (sidebar widgets w)
  = if truthy (api_key_input widgets)
    then set_api_key (Some (api_key_input widgets)) (session w)
    else session w.
Proof.
  intros Hnew Hrecord. unfold sidebar.
  unfold with_session at 1. cbn [session].
  rewrite (record_buttons_elsewhere _ Hrecord).
  destruct (clicked widgets); try contradiction;
    now destruct (truthy (api_key_input widgets)).
Qed.

Lemma sidebar_selects widgets w key :
  clicked widgets = RecordButton key ->
  In key (Dict.keys (research_results (session w))) ->
  current_view (session (sidebar widgets w)) = Some view_research
  /\ selected_research (session (sidebar widgets w)) = Some key.
Proof.
  intros Hclick Hin. unfold sidebar. rewrite Hclick.
  unfold with_session at 1. cbn [session]. unfold record_buttons.
  apply record_button_loop_present.
  now destruct (truthy (api_key_input widgets)).
Qed.

Lemma sidebar_new_research widgets w :
  clicked widgets = NewResearchButton ->
  current_view (session (sidebar widgets w)) = Some new_research
  /\ selected_research (session (sidebar widgets w))
     = selected_research (session w).
Proof.
  intros Hclick. unfold sidebar. rewrite Hclick.
  unfold with_session. cbn [session].
  rewrite !record_buttons_elsewhere by discriminate.
  now destruct (truthy (api_key_input widgets)).
Qed.

(** The record view of a stored record shows it and is done. *)
Lemma main_area_view now widgets w key r :
  current_view (session w) = Some view_research ->
  selected_research (session w) = Some key ->
  Dict.get key (research_results (session w)) = Some r ->
  main_area json_dump write_file laboratory now widgets w = (w, Finished).
Proof.
  intros Hv Hs Hg. unfold main_area. rewrite Hv. cbv zeta.
  now rewrite Hv, Hs, Hg.
Qed.

Lemma get_in_keys (V : Type) key (d : Dict.t V) r :
  Dict.get key d = Some r -> In key (Dict.keys d).
Proof.
  intros H. apply mem_true_in. unfold Dict.mem. now rewrite H.
Qed.

(** A click on the button of a stored record shows that record: the run
    ends in the record view with the record selected, the store is as it
    was, and the export offers the document of that record. *)
Theorem select_stored_record :
  forall previous f now input key r,
    Dict.get key (research_results (session (start_run json_load previous f)))
    = Some r ->
    let run :=
      script_run json_load json_dump write_file laboratory previous f now
        {| api_key_input := input; clicked := RecordButton key |} in
    snd run = Finished
    /\ current_view (session (fst run)) = Some view_research
    /\ selected_research (session (fst run)) = Some key
    /\ research_results (session (fst run))
       = research_results (session (start_run json_load previous f))
    /\ export_markdown (session (fst run))
       = Some (md_content (topic r) (focus_areas r) (results r)).
Proof.
  intros previous f now input key r Hget run. subst run.
  unfold script_run.
  set (start := start_run json_load previous f) in *.
  set (widgets := {| api_key_input := input; clicked := RecordButton key |}).
  destruct (sidebar_effects widgets start) as (_ & _ & Hr & _ & _).
  destruct (@sidebar_selects widgets start key eq_refl
              (get_in_keys _ _ Hget)) as [Hv Hs].
  rewrite (@main_area_view now widgets (sidebar widgets start) key r);
    try assumption; [|now rewrite Hr].
  cbn [fst snd]. repeat split; try assumption.
  unfold export_markdown. now rewrite Hs, Hr, Hget.
Qed.

(** The button for new research brings up the form from any state; the
    run ends there, with the store and the selection untouched and the
    laboratory not called. *)
Theorem new_research_button_shows_form :
  forall previous f now input,
    let start := start_run json_load previous f in
    let run :=
      script_run json_load json_dump write_file laboratory previous f now
        {| api_key_input := input; clicked := NewResearchButton |} in
    snd run = Finished
    /\ current_view (session (fst run)) = Some new_research
    /\ selected_research (session (fst run))
       = selected_research (session start)
    /\ research_results (session (fst run))
       = research_results (session start)
    /\ lab_calls (fst run) = []
    /\ disk (fst run) = f.
Proof.
  intros previous f now input start run. subst run. unfold script_run.
  fold start.
  set (widgets := {| api_key_input := input; clicked := NewResearchButton |}).
  destruct (sidebar_effects widgets start) as (Hd & Hl & Hr & _ & _).
  destruct (@sidebar_new_research widgets start eq_refl) as [Hv Hs].
  assert (Hm : main_area json_dump write_file laboratory now widgets
                 (sidebar widgets start)
               = (sidebar widgets start, Finished)).
  { unfold main_area. rewrite Hv. cbv zeta. now rewrite Hv. }
  rewrite Hm. cbn [fst snd]. now repeat split.
Qed.

(** A form sent off without a topic or without focus areas is dropped in
    silence: nobody is called, nothing is stored or written, and the main
    area shows no box, unless the key is missing too, which is reported. *)
Theorem incomplete_form_is_dropped :
  forall previous f now input form_topic form_focus_areas,
    let start := start_run json_load previous f in
    let widgets :=
      {| api_key_input := input;
         clicked := StartResearch form_topic form_focus_areas |} in
    let run :=
      script_run json_load json_dump write_file laboratory previous f now
        widgets in
    current_view (session start) <> Some view_research ->
    truthy form_topic && truthy form_focus_areas = false ->
    snd run = Finished
    /\ lab_calls (fst run) = []
    /\ research_results (session (fst run))
       = research_results (session start)
    /\ disk (fst run) = f
    /\ shown (fst run)
       = (shown (sidebar widgets start)
          ++ if truthy_opt (api_key (session (fst run)))
             then []
             else [error "Please enter your OpenAI API key in the sidebar first!"])%list.
Proof.
  intros previous f now input t fo start widgets run Hview Hempty.
  subst run. unfold script_run. fold start.
  destruct (sidebar_effects widgets start) as (Hd & Hl & Hr & _ & _).
  change (disk start) with f in Hd.
  change (lab_calls start) with (@nil (string * ResultTree)) in Hl.
  assert (Hs : current_view (session (sidebar widgets start))
               = current_view (session start)).
  { rewrite sidebar_idle by discriminate.
    now destruct (truthy (api_key_input widgets)). }
  set (w := sidebar widgets start) in *. clearbody w.
  unfold main_area.
  set (w1 := match current_view (session w) with
             | Some _ => w
             | None => _
             end).
  assert (H1 : research_results (session w1) = research_results (session w)
               /\ api_key (session w1) = api_key (session w)
               /\ disk w1 = disk w /\ lab_calls w1 = lab_calls w
               /\ shown w1 = shown w
               /\ current_view (session w1) <> Some view_research
               /\ current_view (session w1) <> None).
  { subst w1. rewrite Hs.
    destruct (current_view (session start)) as [[|]|] eqn:E; cbn;
      rewrite ?Hs, ?E; repeat split; congruence. }
  clearbody w1. destruct H1 as (Hr1 & Hk1 & Hd1 & Hl1 & Hsh1 & Hv1 & Hn1).
  destruct (current_view (session w1)) as [[|]|]; try contradiction.
  cbn [clicked widgets]. rewrite Hempty.
  destruct (truthy_opt (api_key (session w1))) eqn:Ek; cbn [negb fst snd];
    cbn [show session shown disk lab_calls]; rewrite ?Ek;
    repeat split; rewrite ?app_nil_r; congruence.
Qed.

(** A run deletes nothing and changes no other record: the keys stay
    pairwise distinct, the old keys keep their order with at most one new
    key behind them, and every key other than the timestamp of the run
    holds the record it held before. *)
Theorem script_run_keeps_records :
  forall previous f now widgets,
    let before := research_results (session (start_run json_load previous f)) in
    let after :=
      research_results
        (session (fst (script_run json_load json_dump write_file laboratory
                         previous f now widgets))) in
    NoDup (Dict.keys before) ->
    NoDup (Dict.keys after)
    /\ (exists added,
          Dict.keys after = (Dict.keys before ++ added)%list
          /\ List.length added <= 1)
    /\ (forall key,
          key <> strftime now -> Dict.get key after = Dict.get key before).
Proof.
  intros previous f now widgets before after Hnodup. subst after.
  pose proof (script_run_cases previous f now widgets) as HE.
  cbv zeta in HE. fold before in HE.
  destruct HE
    as [(H & _) | (t & fo & key & _ & _ & _ & _ & _ & _
                   & [(m & _ & H & _) | (found & _ & H & _)])];
    rewrite H.
  1, 2: split; [exact Hnodup|]; split; [|reflexivity];
    exists []; rewrite app_nil_r; split; [reflexivity | cbn; lia].
  split; [now apply NoDup_keys_set|]. split.
  - rewrite keys_set. destruct (Dict.mem (strftime now) before).
    + exists []. rewrite app_nil_r. split; [reflexivity | cbn; lia].
    + exists [strftime now]. split; [reflexivity | cbn; lia].
  - intros k Hk. now apply get_set_other.
Qed.

(** When the laboratory fails, [conduct_research] returns the failure with
    the text of the exception; it stores no record, writes no file and
    leaves the session as it was.  The call to the laboratory is the only
    trace. *)
Theorem conduct_research_failure :
  forall now topic focus w key message,
    api_key (session w) = Some key ->
    truthy key = true ->
    laboratory key "gpt-4o" topic (task_notes focus) = Raise message ->
    let result :=
      conduct_research json_dump write_file laboratory now topic focus w in
    snd result = Returned false ("Error during research: " ++ message)
    /\ session (fst result) = session w
    /\ disk (fst result) = disk w
    /\ shown (fst result) = shown w
    /\ lab_calls (fst result) = (topic, task_notes focus) :: lab_calls w.
Proof.
  intros now topic focus w key message Hkey Htruthy Hlab result.
  subst result. unfold conduct_research.
  rewrite Hkey, Htruthy, Hlab. now repeat split.
Qed.

(** After a research that went through, the next run shows its record:
    without any click it ends in the record view, and the export is the
    document of the topic, the focus areas as typed and the result of the
    laboratory. *)
Theorem stored_research_is_shown :
  forall previous f now widgets f' now' input,
    let run :=
      script_run json_load json_dump write_file laboratory
        previous f now widgets in
    let next :=
      script_run json_load json_dump write_file laboratory
        (Some (session (fst run))) f' now'
        {| api_key_input := input; clicked := NoClick |} in
    snd run = Restarted ->
    snd next = Finished
    /\ current_view (session (fst next)) = Some view_research
    /\ selected_research (session (fst next)) = Some (strftime now)
    /\ research_results (session (fst next))
       = research_results (session (fst run))
    /\ exists topic focus key found,
         clicked widgets = StartResearch topic focus
         /\ laboratory key "gpt-4o" topic (task_notes focus) = Ok found
         /\ export_markdown (session (fst next))
            = Some (md_content topic focus found).
Proof.
  intros previous f now widgets f' now' input run next Hrestart.
  pose proof (script_run_cases previous f now widgets) as HE.
  cbv zeta in HE. fold run in HE.
  destruct HE
    as [(_ & _ & _ & H) | (t & fo & key & Hc & _ & _ & _ & _ & _
                           & [(m & _ & _ & _ & _ & H)
                             | (found & Hlab & Hr & Hs & Hv & _)])];
    try congruence.
  subst next. unfold script_run.
  set (s := session (fst run)) in *.
  set (widgets' := {| api_key_input := input; clicked := NoClick |}).
  change (start_run json_load (Some s) f')
    with {| session := s; disk := f'; shown := []; lab_calls := [] |}.
  set (start := {| session := s; disk := f'; shown := []; lab_calls := [] |}).
  assert (Hside : session (sidebar widgets' start)
                  = if truthy input then set_api_key (Some input) s else s).
  { rewrite sidebar_idle by discriminate. reflexivity. }
  assert (Hg : Dict.get (strftime now) (research_results s)
               = Some {| topic := t; focus_areas := fo; results := found |}).
  { rewrite Hr. apply get_set. }
  assert (Hfields :
            current_view (session (sidebar widgets' start)) = Some view_research
            /\ selected_research (session (sidebar widgets' start))
               = Some (strftime now)
            /\ research_results (session (sidebar widgets' start))
               = research_results s).
  { rewrite Hside. now destruct (truthy input). }
  destruct Hfields as (Hv' & Hs' & Hr').
  rewrite (@main_area_view now' widgets' (sidebar widgets' start)
             (strftime now)
             {| topic := t; focus_areas := fo; results := found |});
    try assumption; [|now rewrite Hr'].
  cbn [fst snd]. repeat split; try assumption.
  exists t, fo, key, found. repeat split; try assumption.
  unfold export_markdown. now rewrite Hs', Hr', Hg.
Qed.

(** Saving never touches the session: what [conduct_research] returns, the
    session it leaves, the boxes it shows and the call it makes are the
    same whatever the printer writes and whatever becomes of the write. *)
Theorem saving_never_touches_the_session :
  forall other_dump other_write now topic focus w,
    let result :=
      conduct_research json_dump write_file laboratory now topic focus w in
    let other :=
      conduct_research other_dump other_write laboratory now topic focus w in
    snd result = snd other
    /\ session (fst result) = session (fst other)
    /\ shown (fst result) = shown (fst other)
    /\ lab_calls (fst result) = lab_calls (fst other).
Proof.
  intros other_dump other_write now topic focus w result other.
  subst result other. unfold conduct_research.
  destruct (api_key (session w)) as [key|]; [|now repeat split].
  destruct (truthy key); [|now repeat split].
  destruct (laboratory key "gpt-4o" topic (task_notes focus));
    now repeat split.
Qed.

(** A record that was written out is there again in a new session: when
    the write goes through and the parser reads back what the printer
    wrote, a session started from the file holds the store the research
    left. *)
Theorem stored_research_survives_restart :
  forall previous f now widgets,
    let run :=
      script_run json_load json_dump write_file laboratory
        previous f now widgets in
    let after := research_results (session (fst run)) in
    snd run = Restarted ->
    write_file (json_dump after) f = Content (json_dump after) ->
    json_load (json_dump after) = Ok after ->
    research_results (session (start_run json_load None (disk (fst run))))
    = after.
Proof.
  intros previous f now widgets run after Hrestart Hwrite Hparse.
  pose proof (script_run_cases previous f now widgets) as HE.
  cbv zeta in HE. fold run in HE.
  destruct HE
    as [(_ & _ & _ & H) | (t & fo & key & _ & _ & _ & _ & _ & _
                           & [(m & _ & _ & _ & _ & H)
                             | (found & _ & _ & _ & _ & Hd & _)])];
    try congruence.
  fold after in Hd. rewrite Hd, Hwrite.
  cbn [start_run session research_results]. unfold load_results.
  cbn [file_exists read_results]. now rewrite Hparse.
Qed.

(** A record whose write failed lives in the session only: when the file
    is left as it was, a new session loads what the file held before and
    knows nothing of the research. *)
Theorem unsaved_research_is_lost_on_restart :
  forall previous f now widgets,
    let run :=
      script_run json_load json_dump write_file laboratory
        previous f now widgets in
    (forall text, write_file text f = f) ->
    research_results (session (start_run json_load None (disk (fst run))))
    = load_results json_load f.
Proof.
  intros previous f now widgets run Hwrite.
  pose proof (script_run_cases previous f now widgets) as HE.
  cbv zeta in HE. fold run in HE.
  destruct HE
    as [(_ & Hd & _) | (t & fo & key & _ & _ & _ & _ & _ & _
                        & [(m & _ & _ & Hd & _)
                          | (found & _ & _ & _ & _ & Hd & _)])];
    rewrite Hd, ?Hwrite; reflexivity.
Qed.

(** The boxes of a run: first the one on the key, a success when the
    session holds a key after the run and a warning when it does not; then
    whatever the main area shows, which is never anything but an error.
    The success message of a finished research is not among them: the
    script restarts before it could be shown. *)
Theorem only_errors_are_shown :
  forall previous f now widgets,
    let run :=
      script_run json_load json_dump write_file laboratory
        previous f now widgets in
    exists more,
      shown (fst run)
      = (if truthy_opt (api_key (session (fst run)))
         then success "✅ API Key set"
         else warning "⚠️ Please enter your API key") :: more
      /\ Forall (fun box => exists text, box = error text) more.
Proof.
  intros previous f now widgets run.
  assert (Hkey :
    api_key (session (fst run))
    = if truthy (api_key_input widgets)
      then Some (api_key_input widgets)
      else api_key (session (start_run json_load previous f))).
  { subst run. unfold script_run.
    destruct (sidebar_effects widgets (start_run json_load previous f))
      as (_ & _ & _ & Hk & _).
    pose proof (main_area_effects now widgets
                  (sidebar widgets (start_run json_load previous f))) as HM.
    cbv zeta in HM.
    destruct HM as [(_ & H & _)
                   | (_ & t & fo & key & _ & _ & _ & H1 & _ & H2 & _)];
      congruence. }
  rewrite Hkey. subst run. unfold script_run.
  destruct (sidebar_effects widgets (start_run json_load previous f))
    as (_ & _ & _ & Hk & Hsh).
  rewrite Hk in Hsh. cbn [start_run session api_key shown app] in Hsh.
  cbn [start_run session api_key].
  set (w := sidebar widgets (start_run json_load previous f)) in *.
  clearbody w. unfold main_area.
  set (w1 := match current_view (session w) with
             | Some _ => w
             | None => _
             end).
  assert (H1 : shown w1 = shown w)
    by (subst w1; now destruct (current_view (session w))).
  clearbody w1. rewrite <- H1 in Hsh. clear H1.
  assert (Herr : forall text, exists t, error text = error t)
    by (intros text; now exists text).
  destruct (current_view (session w1)) as [[|]|].
  2: { destruct (selected_research (session w1));
         [destruct (Dict.get _ _)|]; cbn [fst]; rewrite Hsh;
         now eexists. }
  all: destruct (clicked widgets) as [ | | k | t fo | ];
    try (cbn [fst]; rewrite Hsh; now eexists);
    destruct (truthy_opt (api_key (session w1))) eqn:Ek; cbn [negb];
    [|cbn [fst show shown]; rewrite Hsh; eexists; split;
      [reflexivity | repeat constructor; apply Herr]];
    destruct (truthy t && truthy fo);
    [|cbn [fst]; rewrite Hsh; now eexists];
    unfold conduct_research;
    destruct (api_key (session w1)) as [key|]; [|discriminate Ek];
    cbn [truthy_opt] in Ek; rewrite Ek;
    destruct (laboratory key "gpt-4o" t (task_notes fo));
    cbn [fst show shown with_session save_results]; rewrite Hsh;
    eexists; (split; [reflexivity | repeat constructor; apply Herr]).
Qed.



End Runs.

(** ** The runs on a concrete session *)

Lemma select_stored_record_witness :
  Dict.get "2024-05-17 09:30:15"
    (research_results
       (session (start_run Lab.json_load (Some Lab.viewing_session) Absent)))
  = Some {| topic := "X"; focus_areas := "a,b";
            results := Mapping [("summary", Scalar (VStr "X"))] |}
  /\ selected_research
       (session
          (fst (script_run Lab.json_load Lab.json_dump Lab.write_file
                  Lab.laboratory (Some Lab.viewing_session) Absent
                  Lab.morning
                  {| api_key_input := "";
                     clicked := RecordButton "2024-05-17 09:30:15" |})))
     = Some "2024-05-17 09:30:15".
Proof.
  split; [reflexivity|].
  pose proof (@select_stored_record Lab.json_load Lab.json_dump
                Lab.write_file Lab.laboratory (Some Lab.viewing_session)
                Absent Lab.morning "" "2024-05-17 09:30:15" _ eq_refl) as H.
  cbv zeta in H. destruct H as (_ & _ & H & _). exact H.
Defined.

Lemma incomplete_form_is_dropped_witness :
  current_view
    (session (start_run Lab.json_load (Some Lab.keyed_session) Absent))
  <> Some view_research
  /\ truthy "" && truthy "x" = false
  /\ lab_calls
       (fst (script_run Lab.json_load Lab.json_dump Lab.write_file
               Lab.laboratory (Some Lab.keyed_session) Absent Lab.morning
               {| api_key_input := ""; clicked := StartResearch "" "x" |}))
     = [].
Proof.
  assert (Hview : current_view
                    (session (start_run Lab.json_load
                                (Some Lab.keyed_session) Absent))
                  <> Some view_research) by discriminate.
  split; [exact Hview|]. split; [reflexivity|].
  pose proof (@incomplete_form_is_dropped Lab.json_load Lab.json_dump
                Lab.write_file Lab.laboratory (Some Lab.keyed_session)
                Absent Lab.morning "" "" "x" Hview eq_refl) as H.
  destruct H as (_ & H & _). exact H.
Defined.

Lemma script_run_keeps_records_witness :
  NoDup
    (Dict.keys
       (research_results
          (session (start_run Lab.json_load
                      (Some (set_current_view new_research
                               Lab.viewing_session)) Absent))))
  /\ NoDup
       (Dict.keys
          (research_results
             (session
                (fst (script_run Lab.json_load Lab.json_dump Lab.write_file
                        Lab.laboratory
                        (Some (set_current_view new_research
                                 Lab.viewing_session))
                        Absent Archive.noon
                        {| api_key_input := "";
                           clicked := StartResearch "Y" "c" |}))))).
Proof.
  assert (Hnodup : NoDup
    (Dict.keys
       (research_results
          (session (start_run Lab.json_load
                      (Some (set_current_view new_research
                               Lab.viewing_session)) Absent))))).
  { cbn. constructor; [intros []|constructor]. }
  split; [exact Hnodup|].
  pose proof (@script_run_keeps_records Lab.json_load Lab.json_dump
                Lab.write_file Lab.laboratory
                (Some (set_current_view new_research Lab.viewing_session))
                Absent Archive.noon
                {| api_key_input := ""; clicked := StartResearch "Y" "c" |}
                Hnodup) as H.
  destruct H as (H & _). exact H.
Defined.

Lemma conduct_research_failure_witness :
  api_key (session (Lab.world_of Lab.keyed_session)) = Some "sk-test"
  /\ truthy "sk-test" = true
  /\ Archive.unreachable "sk-test" "gpt-4o" "A" (task_notes "x")
     = Raise "connection refused"
  /\ snd (conduct_research Lab.json_dump Lab.write_file Archive.unreachable
            Lab.morning "A" "x" (Lab.world_of Lab.keyed_session))
     = Returned false "Error during research: connection refused".
Proof.
  do 3 (split; [reflexivity|]).
  pose proof (@conduct_research_failure Lab.json_dump Lab.write_file
                Archive.unreachable Lab.morning "A" "x"
                (Lab.world_of Lab.keyed_session) "sk-test"
                "connection refused" eq_refl eq_refl eq_refl) as H.
  destruct H as (H & _). exact H.
Defined.

Lemma stored_research_is_shown_witness :
  snd (script_run Lab.json_load Lab.json_dump Lab.write_file Lab.laboratory
         (Some Lab.keyed_session) Absent Lab.morning
         {| api_key_input := ""; clicked := StartResearch "A" "x" |})
  = Restarted
  /\ snd (script_run Lab.json_load Lab.json_dump Lab.write_file
            Lab.laboratory
            (Some (session
                     (fst (script_run Lab.json_load Lab.json_dump
                             Lab.write_file Lab.laboratory
                             (Some Lab.keyed_session) Absent Lab.morning
                             {| api_key_input := "";
                                clicked := StartResearch "A" "x" |}))))
            Absent Lab.morning_later
            {| api_key_input := ""; clicked := NoClick |})
     = Finished.
Proof.
  split; [reflexivity|].
  pose proof (@stored_research_is_shown Lab.json_load Lab.json_dump
                Lab.write_file Lab.laboratory (Some Lab.keyed_session)
                Absent Lab.morning
                {| api_key_input := ""; clicked := StartResearch "A" "x" |}
                Absent Lab.morning_later "" eq_refl) as H.
  destruct H as (H & _). exact H.
Defined.

Lemma stored_research_survives_restart_witness :
  let run :=
    script_run Archive.json_load Lab.json_dump Lab.write_file Lab.laboratory
      (Some (set_current_view new_research Lab.viewing_session))
      Absent Archive.noon
      {| api_key_input := ""; clicked := StartResearch "Y" "c" |} in
  snd run = Restarted
  /\ research_results (session (fst run)) = Archive.two_records
  /\ research_results
       (session (start_run Archive.json_load None (disk (fst run))))
     = research_results (session (fst run)).
Proof.
  cbv zeta. split; [reflexivity|]. split; [reflexivity|].
  apply (@stored_research_survives_restart Archive.json_load Lab.json_dump
           Lab.write_file Lab.laboratory
           (Some (set_current_view new_research Lab.viewing_session))
           Absent Archive.noon
           {| api_key_input := ""; clicked := StartResearch "Y" "c" |});
    reflexivity.
Defined.

Lemma unsaved_research_is_lost_on_restart_witness :
  let run :=
    script_run Lab.json_load Lab.json_dump Archive.read_only Lab.laboratory
      (Some Lab.keyed_session) Absent Lab.morning
      {| api_key_input := ""; clicked := StartResearch "A" "x" |} in
  List.length (research_results (session (fst run))) = 1
  /\ research_results
       (session (start_run Lab.json_load None (disk (fst run))))
     = [].
Proof.
  cbv zeta. split; [reflexivity|].
  apply (@unsaved_research_is_lost_on_restart Lab.json_load Lab.json_dump
           Archive.read_only Lab.laboratory (Some Lab.keyed_session) Absent
           Lab.morning
           {| api_key_input := ""; clicked := StartResearch "A" "x" |}).
  reflexivity.
Defined.

Lemma script_run_selection_stored_witness :
  selection_stored
    (session (start_run Lab.json_load (Some Lab.viewing_session) Absent))
  /\ selection_stored
       (session
          (fst (script_run Lab.json_load Lab.json_dump Lab.write_file
                  Lab.laboratory (Some Lab.viewing_session) Absent
                  Lab.morning
                  {| api_key_input := ""; clicked := NewResearchButton |}))).
Proof.
  assert (Hstart : selection_stored
                     (session (start_run Lab.json_load
                                 (Some Lab.viewing_session) Absent)))
    by reflexivity.
  split; [exact Hstart|].
  exact (proj1 (@script_run_selection_stored Lab.json_load Lab.json_dump
                  Lab.write_file Lab.laboratory (Some Lab.viewing_session)
                  Absent Lab.morning
                  {| api_key_input := ""; clicked := NewResearchButton |}
                  Hstart)).
Defined.


